(** * GERDPy input preparation: weather window and heat-pipe layout

    Shallow embedding of [GERDPy/weather_data.py] ([get_weather_data]) and
    [GERDPy/heatpipes.py] ([Heatpipes.__init__], [Heatpipes.xy_mat]).

    Numbers.  Cells of the weather table and the entries of the numpy
    arrays derived from them are rationals ([Q]): every finite float is a
    rational, comparison is exact, and [/ 8], [/ 100] are the exact
    quotients (the rounding of binary64 division and NaN are not modelled).
    The pipe coordinates need [cos] and [sin]; they live in [R].

    Objects.  A DataFrame and a numpy array are mutable Python objects;
    they are kept in a store indexed by object identity, so that reading
    [data] twice reads the same object and [S_w[i] = 0] writes one array
    only.  Python exceptions are an explicit result. *)

From Stdlib Require Import ZArith QArith Qfield Reals Lra Lia List String.
From stdpp Require Import base option list gmap.

Local Open Scope Z_scope.

(** ** Exceptions and results *)

(** The exceptions the two modules can end in, together with the three
    error kinds that the specification names. *)
Inductive exn : Type :=
  | IndexError
  | ValueError
  | TypeError
  | NotFoundError
  | InvalidConfigurationError
  | EmptyTableError.

Inductive result (A : Type) : Type :=
  | Ok (a : A)
  | Raise (e : exn).
Arguments Ok {A} a.
Arguments Raise {A} e.

Definition rbind {A B : Type} (r : result A) (k : A → result B) : result B :=
  match r with
  | Ok a => k a
  | Raise e => Raise e
  end.

(** ** Python [range] and positional indexing *)

(** [range(a, b, 1)] *)
Definition py_range (a b : Z) : list Z :=
  map (λ k : nat, a + Z.of_nat k) (seq 0 (Z.to_nat (b - a))).

(** [xs[i]] on a sequence of length [n]: a negative position counts from
    the end, anything outside [-n, n) is an [IndexError]. *)
Definition py_index {A : Type} (xs : list A) (i : Z) : result A :=
  let n := Z.of_nat (length xs) in
  let p := if i <? 0 then i + n else i in
  if (p <? 0) || (n <=? p) then Raise IndexError
  else match xs !! Z.to_nat p with
       | Some x => Ok x
       | None => Raise IndexError
       end.

(** ** Window of row positions ([weather_data.py], lines 27-33) *)

Definition window_rows (start_index Nt len_data : Z) : list Z :=
  if start_index + Nt >? len_data then
    if negb (0 =? start_index) then
      py_range start_index len_data ++ py_range 0 start_index
    else
      py_range 0 len_data
  else
    py_range start_index (start_index + Nt).

(** The half-open interval [a, a+n) of integers, written out. *)
Definition interval (a : Z) (n : nat) : list Z :=
  map Z.of_nat (seq (Z.to_nat a) n).

(** ** The object store *)

(** A row of the weather sheet, by pandas column position.  The code reads
    positions 0, 1 and 3 to 7; a sheet with fewer than eight columns is
    not a weather table and has no row of this type. *)
Record row : Type := Row {
  c0 : Q;  (* month *)
  c1 : Q;  (* day *)
  c2 : Q;
  c3 : Q;  (* precipitation [mm/h] *)
  c4 : Q;  (* temperature [°C] *)
  c5 : Q;  (* relative humidity [%] *)
  c6 : Q;  (* wind speed [m/s] *)
  c7 : Q   (* cloudiness [octal units] *)
}.

Abbreviation loc := positive (only parsing).

Inductive obj : Type :=
  | DataFrame (rows : list row)
  | NdArray (cells : list Q).

Abbreviation store := (gmap positive obj) (only parsing).

(** Computations: read and write the store, return a value or raise. *)
Definition M (A : Type) : Type := store → result A * store.

Definition ret {A : Type} (a : A) : M A := λ σ, (Ok a, σ).

Definition bind {A B : Type} (c : M A) (k : A → M B) : M B :=
  λ σ, match c σ with
       | (Ok a, σ1) => k a σ1
       | (Raise e, σ1) => (Raise e, σ1)
       end.

Definition lift {A : Type} (r : result A) : M A := λ σ, (r, σ).

Notation "x <- c ;; k" := (bind c (λ x, k))
  (at level 100, c at next level, right associativity).
Notation "c ;;; k" := (bind c (λ _, k))
  (at level 100, right associativity).

(** A new object gets an identity that no object of the store has. *)
Definition alloc (o : obj) : M loc :=
  λ σ, let l := fresh (dom σ) in (Ok l, <[l := o]> σ).

Definition get_frame (data : loc) : M (list row) :=
  λ σ, match σ !! data with
       | Some (DataFrame F) => (Ok F, σ)
       | _ => (Raise TypeError, σ)
       end.

Definition get_array (a : loc) : M (list Q) :=
  λ σ, match σ !! a with
       | Some (NdArray xs) => (Ok xs, σ)
       | _ => (Raise TypeError, σ)
       end.

Fixpoint mapR {A B : Type} (f : A → result B) (xs : list A) : result (list B) :=
  match xs with
  | [] => Ok []
  | x :: xs' => rbind (f x) (λ y, rbind (mapR f xs') (λ ys, Ok (y :: ys)))
  end.

Fixpoint for_each {A : Type} (xs : list A) (body : A → M unit) : M unit :=
  match xs with
  | [] => ret tt
  | x :: xs' => body x ;;; for_each xs' body
  end.

(** ** pandas *)

(** [pd.read_excel(path, skiprows=3, header=1)], for a file that is read:
    a new DataFrame holding the rows of the sheet.  A missing or
    malformed file makes [read_excel] raise before anything else runs;
    [sheet] is the table of a file that was read. *)
Definition read_excel (sheet : list row) : M loc := alloc (DataFrame sheet).

(** [len(data)] *)
Definition df_len (data : loc) : M Z :=
  F <- get_frame data ;; ret (Z.of_nat (length F)).

(** [data.iloc[:, c]]: the column as a new Series. *)
Definition iloc_col (data : loc) (c : row → Q) : M (list Q) :=
  F <- get_frame data ;; ret (map c F).

(** [data.iloc[rows, c]]: column [c] at the listed positions, as a new
    Series; a position outside the frame is an [IndexError]. *)
Definition iloc_rows (data : loc) (rows : list Z) (c : row → Q) : M (list Q) :=
  F <- get_frame data ;;
  lift (mapR (λ r, rbind (py_index F r) (λ x, Ok (c x))) rows).

(** [series == v] *)
Definition series_eq (s : list Q) (v : Z) : list bool :=
  map (λ x, Qeq_bool x (inject_Z v)) s.

(** [m1 & m2] *)
Definition series_and (m1 m2 : list bool) : list bool := zip_with andb m1 m2.

(** [data.index[mask].tolist()] for the default index 0, 1, 2, ... *)
Fixpoint index_where_from (k : Z) (mask : list bool) : list Z :=
  match mask with
  | [] => []
  | b :: mask' =>
      if b then k :: index_where_from (k + 1) mask'
      else index_where_from (k + 1) mask'
  end.

Definition index_where (mask : list bool) : list Z := index_where_from 0 mask.

(** ** numpy *)

(** [np.array(xs)]: a new array with a copy of the values. *)
Definition np_array (xs : list Q) : M loc := alloc (NdArray xs).

(** [a / d]: a new array. *)
Definition np_div (a : loc) (d : Q) : M loc :=
  xs <- get_array a ;; alloc (NdArray (map (λ x, (x / d)%Q) xs)).

(** [len(a)] *)
Definition np_len (a : loc) : M Z :=
  xs <- get_array a ;; ret (Z.of_nat (length xs)).

(** [a[i]] *)
Definition np_getitem (a : loc) (i : Z) : M Q :=
  xs <- get_array a ;; lift (py_index xs i).

(** [a[i] = v]: writes into the array [a] itself. *)
Definition np_setitem (a : loc) (i : Z) (v : Q) : M unit :=
  λ σ, match σ !! a with
       | Some (NdArray xs) =>
           let n := Z.of_nat (length xs) in
           let p := if i <? 0 then i + n else i in
           if (p <? 0) || (n <=? p) then (Raise IndexError, σ)
           else (Ok tt, <[a := NdArray (<[Z.to_nat p := v]> xs)]> σ)
       | _ => (Raise TypeError, σ)
       end.

(** ** [get_weather_data] *)

(** What [self.ui] gives the function: the sheet behind the path in
    [line_weather_file], the value of the day spin box, and the month,
    [int(cb_month.currentData())]. *)
Record ui : Type := Ui {
  line_weather_file : list row;
  sb_day : Z;
  cb_month : Z
}.

(** The six arrays that are returned, in the order of the [return]. *)
Record weather : Type := Weather {
  u_inf : loc;
  Theta_inf : loc;
  S_w : loc;
  B : loc;
  Phi : loc;
  RR : loc
}.

(** [len(data)] is read once: nothing writes to the store between its
    uses in lines 27 to 33. *)
Definition get_weather_data (Nt : Z) (self : ui) : M weather :=
  data <- read_excel (line_weather_file self) ;;
  let day := sb_day self in
  let month := cb_month self in
  m0 <- iloc_col data c0 ;;
  m1 <- iloc_col data c1 ;;
  start_index <-
    lift (py_index (index_where (series_and (series_eq m0 month) (series_eq m1 day))) 0) ;;
  len_data <- df_len data ;;
  let rows := window_rows start_index Nt len_data in
  s6 <- iloc_rows data rows c6 ;;
  u_inf <- np_array s6 ;;
  s4 <- iloc_rows data rows c4 ;;
  Theta_inf <- np_array s4 ;;
  s3 <- iloc_rows data rows c3 ;;
  S_w <- np_array s3 ;;
  n <- np_len Theta_inf ;;
  for_each (py_range 0 n)
    (λ i, j <- np_getitem Theta_inf i ;;
          if Qle_bool 1 j then np_setitem S_w i 0%Q else ret tt) ;;;
  s7 <- iloc_rows data rows c7 ;;
  a7 <- np_array s7 ;;
  B <- np_div a7 8%Q ;;
  s5 <- iloc_rows data rows c5 ;;
  a5 <- np_array s5 ;;
  Phi <- np_div a5 100%Q ;;
  s3' <- iloc_rows data rows c3 ;;
  RR <- np_array s3' ;;
  ret (Weather u_inf Theta_inf S_w B Phi RR).

(** The values of an array of the store ([[]] when [a] is no array). *)
Definition values (σ : store) (a : loc) : list Q :=
  match σ !! a with
  | Some (NdArray xs) => xs
  | _ => []
  end.

(** A small sheet: three hours of 1 January, one of 2 January. *)
Definition sheet0 : list row :=
  [ Row 1 1 0 (3#2) (-2) 80 4 8;
    Row 1 1 1 (1#2) (1#2) 90 3 4;
    Row 1 1 2 2 1 100 (5#2) 0;
    Row 1 2 0 1 3 50 1 2 ]%Q.

Definition ui0 : ui := Ui sheet0 1 1.

(** ** Heat pipes ([heatpipes.py]) *)

(** [int(x)] of a number: the integer part, rounded toward zero. *)
Definition py_int (x : Q) : Z := Z.quot (Qnum x) (Z.pos (Qden x)).

Module Heatpipes.

Record t : Type := Build {
  N : Z;
  r_b : R;
  r_w : R;
  r_iso_a : R;
  r_pa : R;
  r_pi : R;
  lambda_b : R;
  lambda_iso : R;
  lambda_p : R
}.

(** The constructor: [int(N)] for the count, [float(...)] for the rest.
    The arguments are finite numbers: the count a finite [int] or
    [float] (a rational), the others finite floats, which [float(...)]
    leaves as they are.  On [nan], on an infinity and on an [int] beyond
    the range of a float, [int] and [float] raise [ValueError] or
    [OverflowError], and [float] rounds a large [int]: these arguments
    are outside the types below.  No argument is checked. *)
Definition __init__ (N : Q) (r_b r_w r_iso_a r_pa r_pi
                     lambda_b lambda_iso lambda_p : R) : result t :=
  Ok (Build (py_int N) r_b r_w r_iso_a r_pa r_pi lambda_b lambda_iso lambda_p).

(** [np.zeros([n, 2])]: [n] rows [(0, 0)]; numpy refuses a negative
    dimension with a [ValueError]. *)
Definition np_zeros2 (n : Z) : result (list (R * R)) :=
  if n <? 0 then Raise ValueError
  else Ok (replicate (Z.to_nat n) (0%R, 0%R)).

(** [m[i, 0] = v] *)
Definition setitem_x (m : list (R * R)) (i : Z) (v : R) : result (list (R * R)) :=
  rbind (py_index m i) (λ p,
    Ok (<[Z.to_nat (if i <? 0 then i + Z.of_nat (length m) else i) := (v, p.2)]> m)).

(** [m[i, 1] = v] *)
Definition setitem_y (m : list (R * R)) (i : Z) (v : R) : result (list (R * R)) :=
  rbind (py_index m i) (λ p,
    Ok (<[Z.to_nat (if i <? 0 then i + Z.of_nat (length m) else i) := (p.1, v)]> m)).

(** The body of the loop for one [i]. *)
Definition xy_step (self : t) (m : list (R * R)) (i : Z) : result (list (R * R)) :=
  rbind (setitem_x m i (r_w self * cos (2 * PI * IZR i / IZR (N self)))%R) (λ m1,
    setitem_y m1 i (r_w self * sin (2 * PI * IZR i / IZR (N self)))%R).

Fixpoint xy_loop (self : t) (m : list (R * R)) (ixs : list Z) : result (list (R * R)) :=
  match ixs with
  | [] => Ok m
  | i :: ixs' => rbind (xy_step self m i) (λ m', xy_loop self m' ixs')
  end.

Definition xy_mat (self : t) : result (list (R * R)) :=
  rbind (np_zeros2 (N self)) (λ xy_mat,
    xy_loop self xy_mat (py_range 0 (N self))).

(** *** [visualize_hp_config] *)

(** What matplotlib is asked to draw: the circles given to [add_patch],
    the labels given to [text], and the settings of the axes. *)
Inductive linestyle : Type := Dashed | Solid.

Record Circle : Type := MkCircle {
  centre : R * R;
  radius : R;
  fill : bool;
  ls : linestyle;
  linewidth : R
}.

Record Text : Type := MkText {
  text_xy : R * R;
  text_s : Z;
  ha : string;
  va : string;
  size : R
}.

Record Axes : Type := MkAxes {
  patches : list Circle;
  texts : list Text;
  xlabel : string;
  ylabel : string;
  title : string;
  axis_equal : bool;
  minor_locators : bool;
  tight_layout : bool
}.

(** [fig.add_subplot(111)] *)
Definition new_axes : Axes := MkAxes [] [] "" "" "" false false false.

(** [ax.add_patch(c)] *)
Definition add_patch (ax : Axes) (c : Circle) : Axes :=
  MkAxes (patches ax ++ [c]) (texts ax) (xlabel ax) (ylabel ax) (title ax)
         (axis_equal ax) (minor_locators ax) (tight_layout ax).

(** [ax.text(x, y, s, ha=.., va=.., size=..)] *)
Definition add_text (ax : Axes) (tx : Text) : Axes :=
  MkAxes (patches ax) (texts ax ++ [tx]) (xlabel ax) (ylabel ax) (title ax)
         (axis_equal ax) (minor_locators ax) (tight_layout ax).

(** Line width and font size. *)
Definition LW : R := 0.5%R.
Definition FS : R := 12%R.

(** The body of the loop over the heat pipes for one [i]. *)
Definition hp_step (self : t) (ax : Axes) (i : Z) : result Axes :=
  rbind (xy_mat self) (λ xy,
  rbind (py_index xy i) (λ p0,
  rbind (py_index xy i) (λ p1,
    let x := p0.1 in
    let y := p1.2 in
    let hp_iso := MkCircle (x, y) (r_iso_a self) false Solid LW in
    let hp_itself_outer := MkCircle (x, y) (r_pa self) false Solid LW in
    let hp_itself_inner := MkCircle (x, y) (r_pi self) false Solid LW in
    let ax1 := add_text ax (MkText (x, y) (i + 1) "center" "center" FS) in
    let ax2 := add_patch ax1 hp_iso in
    let ax3 := add_patch ax2 hp_itself_outer in
    Ok (add_patch ax3 hp_itself_inner)))).

Fixpoint hp_loop (self : t) (ax : Axes) (ixs : list Z) : result Axes :=
  match ixs with
  | [] => Ok ax
  | i :: ixs' => rbind (hp_step self ax i) (λ ax', hp_loop self ax' ixs')
  end.

Definition visualize_hp_config (self : t) : result Axes :=
  let ax := new_axes in
  let borewall := MkCircle (0%R, 0%R) (r_b self) false Dashed LW in
  let ax := add_patch ax borewall in
  rbind (hp_loop self ax (py_range 0 (N self))) (λ ax,
    Ok (MkAxes (patches ax) (texts ax) "x (m)" "y (m)" "Heatpipe Layout"
               true true true)).

End Heatpipes.

(** The point of pipe [i] among [n] on the circle of radius [r]. *)
Definition pipe_point (r : R) (n i : Z) : R * R :=
  ((r * cos (2 * PI * IZR i / IZR n))%R, (r * sin (2 * PI * IZR i / IZR n))%R).

(** Distance of a point from the origin. *)
Definition dist0 (p : R * R) : R := sqrt (p.1 * p.1 + p.2 * p.2).

(** What the specification asks of a configuration: strictly nested radii. *)
Definition nested (h : Heatpipes.t) : Prop :=
  (Heatpipes.r_pi h < Heatpipes.r_pa h ∧
   Heatpipes.r_pa h < Heatpipes.r_iso_a h ∧
   Heatpipes.r_iso_a h < Heatpipes.r_w h ∧
   Heatpipes.r_w h < Heatpipes.r_b h)%R.

(** Configurations with nested radii: one pipe, no pipe. *)
Definition hp_one : Heatpipes.t := Heatpipes.Build 1 5 4 3 2 1 1 1 1.

Definition hp_none : Heatpipes.t := Heatpipes.Build 0 5 4 3 2 1 1 1 1.

(** Radii in the reverse of the nested order. *)
Definition hp_reversed : Heatpipes.t := Heatpipes.Build 4 1 2 3 4 5 1 1 1.

(** A negative count. *)
Definition hp_negative : Heatpipes.t := Heatpipes.Build (-2) 5 4 3 2 1 1 1 1.

(** ** Vocabulary of the statements *)

(** The row at each listed position of the frame. *)
Definition selected (F : list row) (rows : list Z) : list row :=
  omap (λ r, F !! Z.to_nat r) rows.

(** A row carries the requested date. *)
Definition row_matches (month day : Z) (ρ : row) : bool :=
  Qeq_bool (c0 ρ) (inject_Z month) && Qeq_bool (c1 ρ) (inject_Z day).

(** No row of the sheet carries the requested date. *)
Definition no_match (F : list row) (month day : Z) : Prop :=
  ∀ ρ, ρ ∈ F → ¬ ((c0 ρ == inject_Z month)%Q ∧ (c1 ρ == inject_Z day)%Q).

(** The first position whose row carries the requested date, if any. *)
Definition start_of (F : list row) (month day : Z) : option Z :=
  head (index_where (map (row_matches month day) F)).

(** The snowfall value of a row: its precipitation, or [0] from 1 °C on. *)
Definition snow_of (temperature precipitation : Q) : Q :=
  if Qle_bool 1 temperature then 0%Q else precipitation.

(** The arrays returned for [ui0] in an empty store, by identity. *)
Definition w0 : weather := Weather 2 3 4 6 8 9.

(** The same sheet, asked for 1 February. *)
Definition ui_feb : ui := Ui sheet0 1 2.

(** ** Vocabulary of the further properties *)

(** A point turned about the origin by the angle [δ]. *)
Definition rotate (δ : R) (p : R * R) : R * R :=
  ((p.1 * cos δ - p.2 * sin δ)%R, (p.1 * sin δ + p.2 * cos δ)%R).

(** Four pipes, nested radii. *)
Definition hp_four : Heatpipes.t := Heatpipes.Build 4 5 4 3 2 1 1 1 1.

(** The six arrays of a result, in the order of the [return]. *)
Definition arrays (w : weather) : list loc :=
  [u_inf w; Theta_inf w; S_w w; B w; Phi w; RR w].

(** The three circles drawn for pipe [i], and its label. *)
Definition pipe_circles (self : Heatpipes.t) (i : nat) : list Heatpipes.Circle :=
  let c := pipe_point (Heatpipes.r_w self) (Heatpipes.N self) (Z.of_nat i) in
  [ Heatpipes.MkCircle c (Heatpipes.r_iso_a self) false Heatpipes.Solid Heatpipes.LW;
    Heatpipes.MkCircle c (Heatpipes.r_pa self) false Heatpipes.Solid Heatpipes.LW;
    Heatpipes.MkCircle c (Heatpipes.r_pi self) false Heatpipes.Solid Heatpipes.LW ].

Definition pipe_label (self : Heatpipes.t) (i : nat) : Heatpipes.Text :=
  Heatpipes.MkText
    (pipe_point (Heatpipes.r_w self) (Heatpipes.N self) (Z.of_nat i))
    (Z.of_nat i + 1) "center" "center" Heatpipes.FS.

(** The outline of the borehole wall. *)
Definition borewall (self : Heatpipes.t) : Heatpipes.Circle :=
  Heatpipes.MkCircle (0%R, 0%R) (Heatpipes.r_b self) false
                     Heatpipes.Dashed Heatpipes.LW.

(** * Properties *)

Lemma py_range_length a b : length (py_range a b) = Z.to_nat (b - a).
Proof. unfold py_range. by rewrite length_map, length_seq. Qed.

Lemma py_range_interval a b :
  0 ≤ a → py_range a b = interval a (Z.to_nat (b - a)).
Proof.
  intros Ha. unfold py_range, interval.
  rewrite <- (Nat.add_0_r (Z.to_nat a)) at 1.
  rewrite <- fmap_add_seq, <- list_fmap_compose.
  apply list_fmap_ext. intros _ k _. simpl. lia.
Qed.


Lemma py_index_ok {A} (xs : list A) (i : Z) x :
  0 ≤ i → xs !! Z.to_nat i = Some x → py_index xs i = Ok x.
Proof.
  intros Hi Hx. unfold py_index.
  pose proof (lookup_lt_Some _ _ _ Hx) as Hlt.
  destruct (Z.ltb_spec i 0); [lia|].
  destruct (Z.ltb_spec i 0); [lia|].
  destruct (Z.leb_spec (Z.of_nat (length xs)) i); [lia|].
  simpl. by rewrite Hx.
Qed.

Lemma py_index_nil {A} (i : Z) : py_index (@nil A) i = Raise IndexError.
Proof.
  unfold py_index. cbv zeta. case (_ || _); [done|]. by rewrite lookup_nil.
Qed.

(** ** The window of rows *)

(** C1.  For a table of length [L], a found start position [s]
    ([0 ≤ s < L]) and a positive step count [Nt], the selected positions
    are: the [Nt] contiguous positions from [s] when [s + Nt ≤ L];
    otherwise, when [s ≠ 0], the positions [s .. L-1] followed by
    [0 .. s-1], [L] of them and not [Nt]; otherwise ([s = 0], [Nt > L])
    all positions [0 .. L-1] in order, [L] of them. *)
Theorem window_rows_cases (s Nt L : Z) :
  0 ≤ s < L → 0 < Nt →
  (s + Nt ≤ L →
     window_rows s Nt L = interval s (Z.to_nat Nt) ∧
     Z.of_nat (length (window_rows s Nt L)) = Nt) ∧
  (L < s + Nt → s ≠ 0 →
     window_rows s Nt L = interval s (Z.to_nat (L - s)) ++ interval 0 (Z.to_nat s) ∧
     Z.of_nat (length (window_rows s Nt L)) = L) ∧
  (L < s + Nt → s = 0 →
     L < Nt ∧
     window_rows s Nt L = interval 0 (Z.to_nat L) ∧
     Z.of_nat (length (window_rows s Nt L)) = L).
Proof.
  intros Hs HNt. unfold window_rows. repeat split.
  - destruct (Z.gtb_spec (s + Nt) L); [lia|].
    rewrite py_range_interval by lia. f_equal. lia.
  - destruct (Z.gtb_spec (s + Nt) L); [lia|].
    rewrite py_range_length. lia.
  - destruct (Z.gtb_spec (s + Nt) L); [|lia].
    destruct (Z.eqb_spec 0 s); [lia|]. simpl.
    rewrite !py_range_interval by lia. do 3 f_equal. lia.
  - destruct (Z.gtb_spec (s + Nt) L); [|lia].
    destruct (Z.eqb_spec 0 s); [lia|]. simpl.
    rewrite length_app, !py_range_length. lia.
  - lia.
  - destruct (Z.gtb_spec (s + Nt) L); [|lia].
    destruct (Z.eqb_spec 0 s); [|lia]. simpl.
    rewrite py_range_interval by lia. f_equal. lia.
  - destruct (Z.gtb_spec (s + Nt) L); [|lia].
    destruct (Z.eqb_spec 0 s); [|lia]. simpl.
    rewrite py_range_length. lia.
Qed.

(** The three cases of the specification's table of 100 rows. *)
Lemma window_rows_cases_witness :
  window_rows 10 5 100 = [10; 11; 12; 13; 14] ∧
  window_rows 95 10 100 = interval 95 5 ++ interval 0 95 ∧
  Z.of_nat (length (window_rows 95 10 100)) = 100 ∧
  window_rows 0 500 100 = interval 0 100.
Proof.
  split; [|split; [|split]].
  - exact (proj1 (proj1 (window_rows_cases 10 5 100
             ltac:(lia) ltac:(lia)) ltac:(lia))).
  - exact (proj1 (proj1 (proj2 (window_rows_cases 95 10 100
             ltac:(lia) ltac:(lia))) ltac:(lia) ltac:(lia))).
  - exact (proj2 (proj1 (proj2 (window_rows_cases 95 10 100
             ltac:(lia) ltac:(lia))) ltac:(lia) ltac:(lia))).
  - exact (proj1 (proj2 (proj2 (proj2 (window_rows_cases 0 500 100
             ltac:(lia) ltac:(lia))) ltac:(lia) ltac:(reflexivity)))).
Defined.

(** Every selected position lies inside the frame. *)
Lemma window_rows_in_range (s Nt L : Z) :
  0 ≤ s < L → Forall (λ r, 0 ≤ r < L) (window_rows s Nt L).
Proof.
  intros Hs. unfold window_rows.
  assert (Hr : ∀ a b, 0 ≤ a → b ≤ L → Forall (λ r, 0 ≤ r < L) (py_range a b)).
  { intros a b Ha Hb. apply Forall_forall. intros r Hr.
    unfold py_range in Hr. apply list_elem_of_fmap in Hr as (k & -> & Hk).
    apply elem_of_seq in Hk. lia. }
  destruct (Z.gtb_spec (s + Nt) L).
  - destruct (negb (0 =? s)).
    + apply Forall_app. split; apply Hr; lia.
    + apply Hr; lia.
  - apply Hr; lia.
Qed.

(** ** Steps of a computation *)

Lemma bind_ok {A C} (c : M A) (k : A → M C) (σ σ1 : store) a :
  c σ = (Ok a, σ1) → bind c k σ = k a σ1.
Proof. intros H. unfold bind. by rewrite H. Qed.

Lemma bind_raise {A C} (c : M A) (k : A → M C) (σ σ1 : store) e :
  c σ = (Raise e, σ1) → bind c k σ = (Raise e, σ1).
Proof. intros H. unfold bind. by rewrite H. Qed.

Lemma fresh_None (σ : store) : σ !! fresh (dom σ) = None.
Proof. apply not_elem_of_dom, is_fresh. Qed.

Lemma lookup_alloc_old (σ : store) o l x :
  σ !! l = Some x → <[fresh (dom σ) := o]> σ !! l = Some x.
Proof.
  intros H. rewrite lookup_insert_ne; [done|].
  intros <-. rewrite fresh_None in H. done.
Qed.

Lemma alloc_subseteq (σ : store) o : σ ⊆ <[fresh (dom σ) := o]> σ.
Proof. apply insert_subseteq, fresh_None. Qed.

Lemma alloc_run (o : obj) (σ : store) :
  alloc o σ = (Ok (fresh (dom σ)), <[fresh (dom σ) := o]> σ).
Proof. reflexivity. Qed.

(** One step of a run [H : _ = (x <- c ;; k) σ], by an equation for [c σ]. *)
Ltac step H eqn := rewrite (bind_ok _ _ _ _ _ eqn) in H.

(** An object is found under the allocations made after it. *)
Ltac old_object :=
  repeat first [ apply lookup_insert_eq | apply lookup_alloc_old ];
  first [ done | assumption ].

Lemma get_frame_run (σ : store) data F :
  σ !! data = Some (DataFrame F) → get_frame data σ = (Ok F, σ).
Proof. intros H. unfold get_frame. by rewrite H. Qed.

Lemma get_array_run (σ : store) a xs :
  σ !! a = Some (NdArray xs) → get_array a σ = (Ok xs, σ).
Proof. intros H. unfold get_array. by rewrite H. Qed.

Lemma iloc_col_run (σ : store) data F c :
  σ !! data = Some (DataFrame F) → iloc_col data c σ = (Ok (map c F), σ).
Proof. intros H. unfold iloc_col. by rewrite (bind_ok _ _ _ _ _ (get_frame_run _ _ _ H)). Qed.

Lemma df_len_run (σ : store) data F :
  σ !! data = Some (DataFrame F) → df_len data σ = (Ok (Z.of_nat (length F)), σ).
Proof. intros H. unfold df_len. by rewrite (bind_ok _ _ _ _ _ (get_frame_run _ _ _ H)). Qed.

Lemma np_len_run (σ : store) a xs :
  σ !! a = Some (NdArray xs) → np_len a σ = (Ok (Z.of_nat (length xs)), σ).
Proof. intros H. unfold np_len. by rewrite (bind_ok _ _ _ _ _ (get_array_run _ _ _ H)). Qed.

Lemma np_div_run (σ : store) a xs d :
  σ !! a = Some (NdArray xs) →
  np_div a d σ =
    (Ok (fresh (dom σ)), <[fresh (dom σ) := NdArray (map (λ x, (x / d)%Q) xs)]> σ).
Proof. intros H. unfold np_div. by rewrite (bind_ok _ _ _ _ _ (get_array_run _ _ _ H)). Qed.

(** ** Rows at positions inside the frame *)

Lemma selected_cons F r rows ρ :
  F !! Z.to_nat r = Some ρ → selected F (r :: rows) = ρ :: selected F rows.
Proof. intros H. unfold selected. simpl. by rewrite H. Qed.

Lemma mapR_selected (F : list row) (c : row → Q) rows :
  Forall (λ r, 0 ≤ r < Z.of_nat (length F)) rows →
  mapR (λ r, rbind (py_index F r) (λ x, Ok (c x))) rows = Ok (map c (selected F rows)).
Proof.
  induction 1 as [|r rows Hr _ IH]; [done|].
  destruct (lookup_lt_is_Some_2 F (Z.to_nat r)) as [ρ Hρ]; [lia|].
  rewrite (selected_cons _ _ _ _ Hρ). cbn [mapR map].
  rewrite (py_index_ok F r ρ) by (lia || done). cbn [rbind].
  by rewrite IH.
Qed.

Lemma selected_length (F : list row) rows :
  Forall (λ r, 0 ≤ r < Z.of_nat (length F)) rows →
  length (selected F rows) = length rows.
Proof.
  induction 1 as [|r rows Hr _ IH]; [done|].
  destruct (lookup_lt_is_Some_2 F (Z.to_nat r)) as [ρ Hρ]; [lia|].
  rewrite (selected_cons _ _ _ _ Hρ). simpl. by rewrite IH.
Qed.

Lemma selected_lookup (F : list row) rows (i : nat) r :
  Forall (λ r, 0 ≤ r < Z.of_nat (length F)) rows →
  rows !! i = Some r → selected F rows !! i = F !! Z.to_nat r.
Proof.
  intros H. revert i. induction H as [|r0 rows Hr _ IH]; intros i Hi; [done|].
  destruct (lookup_lt_is_Some_2 F (Z.to_nat r0)) as [ρ Hρ]; [lia|].
  rewrite (selected_cons _ _ _ _ Hρ).
  destruct i as [|i]; simpl in *.
  - by simplify_eq.
  - by apply IH.
Qed.

Lemma iloc_rows_run (σ : store) data F rows c :
  σ !! data = Some (DataFrame F) →
  Forall (λ r, 0 ≤ r < Z.of_nat (length F)) rows →
  iloc_rows data rows c σ = (Ok (map c (selected F rows)), σ).
Proof.
  intros H Hr. unfold iloc_rows.
  rewrite (bind_ok _ _ _ _ _ (get_frame_run _ _ _ H)).
  unfold lift. by rewrite mapR_selected.
Qed.

(** ** The loop that zeroes the snowfall *)

Lemma snow_loop_run (tl sl : loc) (n : nat) :
  tl ≠ sl →
  ∀ (k : nat) (ts ss : list Q) (σ : store),
    σ !! tl = Some (NdArray ts) →
    σ !! sl = Some (NdArray ss) →
    length ss = length ts →
    (k + n = length ts)%nat →
    for_each (map (λ j : nat, 0 + Z.of_nat j) (seq k n))
      (λ i, j <- np_getitem tl i ;;
            if Qle_bool 1 j then np_setitem sl i 0%Q else ret tt) σ
    = (Ok tt,
       <[sl := NdArray (take k ss ++ zip_with snow_of (drop k ts) (drop k ss))]> σ).
Proof.
  intros HTS. induction n as [|n IH]; intros k ts ss σ HT HS Hlen Hk.
  - simpl. unfold ret. f_equal. symmetry.
    rewrite (drop_ge ts), (take_ge ss) by lia. simpl.
    rewrite app_nil_r. by apply insert_id.
  - destruct (lookup_lt_is_Some_2 ts k) as [t Ht]; [lia|].
    destruct (lookup_lt_is_Some_2 ss k) as [s Hs]; [lia|].
    assert (Hgo : take k ss ++ zip_with snow_of (drop k ts) (drop k ss)
                  = take k ss ++ snow_of t s ::
                      zip_with snow_of (drop (S k) ts) (drop (S k) ss)).
    { by rewrite (drop_S ts t k Ht), (drop_S ss s k Hs). }
    rewrite Hgo. clear Hgo.
    simpl seq. simpl map. simpl for_each.
    assert (Hget : np_getitem tl (0 + Z.of_nat k) σ = (Ok t, σ)).
    { unfold np_getitem. rewrite (bind_ok _ _ _ _ _ (get_array_run _ _ _ HT)).
      unfold lift. rewrite (py_index_ok ts _ t); [done|lia|].
      by replace (Z.to_nat (0 + Z.of_nat k)) with k by lia. }
    unfold snow_of at 1.
    destruct (Qle_bool 1 t) eqn:Ecmp.
    + assert (Hset : (j <- np_getitem tl (0 + Z.of_nat k) ;;
                      if Qle_bool 1 j then np_setitem sl (0 + Z.of_nat k) 0%Q
                      else ret tt) σ
                     = (Ok tt, <[sl := NdArray (<[k := 0%Q]> ss)]> σ)).
      { rewrite (bind_ok _ _ _ _ _ Hget), Ecmp. unfold np_setitem. rewrite HS.
        destruct (Z.ltb_spec (0 + Z.of_nat k) 0); [lia|].
        destruct (Z.ltb_spec (0 + Z.of_nat k) 0); [lia|].
        destruct (Z.leb_spec (Z.of_nat (length ss)) (0 + Z.of_nat k)); [lia|].
        simpl. by replace (Z.to_nat (0 + Z.of_nat k)) with k by lia. }
      rewrite (bind_ok _ _ _ _ _ Hset).
      rewrite (IH (S k) ts (<[k := 0%Q]> ss)).
      * rewrite insert_insert_eq. do 3 f_equal.
        rewrite drop_insert_lt by lia.
        rewrite (take_S_r _ _ 0%Q).
        -- rewrite take_insert_ge by lia. by rewrite <- app_assoc.
        -- apply list_lookup_insert_eq. lia.
      * by rewrite lookup_insert_ne.
      * by rewrite lookup_insert_eq.
      * by rewrite length_insert.
      * lia.
    + assert (Hskip : (j <- np_getitem tl (0 + Z.of_nat k) ;;
                       if Qle_bool 1 j then np_setitem sl (0 + Z.of_nat k) 0%Q
                       else ret tt) σ = (Ok tt, σ)).
      { by rewrite (bind_ok _ _ _ _ _ Hget), Ecmp. }
      rewrite (bind_ok _ _ _ _ _ Hskip).
      rewrite (IH (S k) ts ss); [|done..|lia].
      do 3 f_equal. rewrite (take_S_r _ _ s) by done. by rewrite <- app_assoc.
Qed.

(** ** Locating the start row *)

Lemma mask_rows (F : list row) month day :
  series_and (series_eq (map c0 F) month) (series_eq (map c1 F) day)
  = map (row_matches month day) F.
Proof.
  unfold series_and, series_eq. induction F as [|ρ F IH]; [done|].
  simpl. by rewrite IH.
Qed.

Lemma index_where_from_all_false k mask :
  Forall (λ b, b = false) mask → index_where_from k mask = [].
Proof.
  intros H. revert k. induction H as [|b mask -> _ IH]; intros k; [done|].
  simpl. apply IH.
Qed.

Lemma index_where_from_head mask : ∀ k s rest,
  index_where_from k mask = s :: rest →
  k ≤ s < k + Z.of_nat (length mask) ∧
  mask !! Z.to_nat (s - k) = Some true ∧
  ∀ j : nat, (j < Z.to_nat (s - k))%nat → mask !! j = Some false.
Proof.
  induction mask as [|b mask IH]; intros k s rest H; [done|].
  simpl in H. destruct b.
  - injection H as <- _. rewrite Z.sub_diag. simpl.
    split; [lia|]. split; [done|]. intros j Hj. lia.
  - apply IH in H as (Hs & Ht & Hf).
    replace (Z.to_nat (s - k)) with (S (Z.to_nat (s - (k + 1)))) by lia.
    simpl length. split; [lia|]. split; [done|].
    intros [|j] Hj; [done|]. simpl. apply Hf. lia.
Qed.

Lemma no_match_mask (F : list row) month day :
  no_match F month day → Forall (λ b, b = false) (map (row_matches month day) F).
Proof.
  intros H. apply Forall_fmap, Forall_forall. intros ρ Hρ. simpl.
  unfold row_matches. apply not_true_is_false. intros Hb.
  apply andb_prop in Hb as [H0 H1].
  apply (H ρ Hρ). split; by apply Qeq_bool_iff.
Qed.

Lemma start_of_None (F : list row) month day :
  no_match F month day → start_of F month day = None.
Proof.
  intros H. unfold start_of, index_where.
  by rewrite (index_where_from_all_false _ _ (no_match_mask _ _ _ H)).
Qed.

(** [start_of] is the first matching position. *)
Lemma start_of_Some (F : list row) month day s :
  start_of F month day = Some s →
  0 ≤ s < Z.of_nat (length F) ∧
  (∃ ρ, F !! Z.to_nat s = Some ρ ∧ row_matches month day ρ = true) ∧
  (∀ (j : nat) ρ, (j < Z.to_nat s)%nat → F !! j = Some ρ →
                  row_matches month day ρ = false).
Proof.
  unfold start_of, index_where. intros H.
  destruct (index_where_from 0 (map (row_matches month day) F))
    as [|s' rest] eqn:E; [done|].
  simpl in H. injection H as ->.
  apply index_where_from_head in E as (Hs & Ht & Hf).
  rewrite Z.sub_0_r in *. rewrite length_map in Hs.
  split; [lia|]. split.
  - rewrite list_lookup_fmap in Ht.
    destruct (F !! Z.to_nat s) as [ρ|]; [|done].
    exists ρ. split; [done|]. simpl in Ht. by injection Ht.
  - intros j ρ Hj Hρ. specialize (Hf j Hj).
    rewrite list_lookup_fmap, Hρ in Hf. simpl in Hf. by injection Hf.
Qed.

Lemma zip_with_snow (sel : list row) :
  zip_with snow_of (map c4 sel) (map c3 sel)
  = map (λ ρ, snow_of (c4 ρ) (c3 ρ)) sel.
Proof. induction sel as [|ρ sel IH]; [done|]. simpl. by rewrite IH. Qed.

(** ** Running [get_weather_data] *)

(** Without a matching row, [tolist()[0]] raises; the store has gained the
    frame and nothing else. *)
Lemma get_weather_data_not_found Nt self (σ : store) :
  start_of (line_weather_file self) (cb_month self) (sb_day self) = None →
  get_weather_data Nt self σ
  = (Raise IndexError,
     <[fresh (dom σ) := DataFrame (line_weather_file self)]> σ).
Proof.
  intros Hs. unfold get_weather_data, read_excel.
  set (F := line_weather_file self) in *.
  set (d := fresh (dom σ)). set (σ1 := <[d := DataFrame F]> σ).
  assert (Hd1 : σ1 !! d = Some (DataFrame F)) by apply lookup_insert_eq.
  rewrite (bind_ok _ _ σ σ1 d) by reflexivity.
  rewrite (bind_ok _ _ _ _ _ (iloc_col_run _ _ _ c0 Hd1)).
  rewrite (bind_ok _ _ _ _ _ (iloc_col_run _ _ _ c1 Hd1)).
  rewrite mask_rows.
  apply bind_raise. unfold lift. f_equal.
  unfold start_of in Hs.
  destruct (index_where (map (row_matches (cb_month self) (sb_day self)) F));
    [apply py_index_nil|done].
Qed.

(** With a matching row the call returns six arrays; their values are
    the columns of the selected rows, and every object the store had is
    as it was. *)
Lemma get_weather_data_found Nt self (σ : store) s :
  start_of (line_weather_file self) (cb_month self) (sb_day self) = Some s →
  let F := line_weather_file self in
  let sel := selected F (window_rows s Nt (Z.of_nat (length F))) in
  ∃ w (σ' : store),
    get_weather_data Nt self σ = (Ok w, σ') ∧
    σ' !! u_inf w = Some (NdArray (map c6 sel)) ∧
    σ' !! Theta_inf w = Some (NdArray (map c4 sel)) ∧
    σ' !! S_w w = Some (NdArray (map (λ ρ, snow_of (c4 ρ) (c3 ρ)) sel)) ∧
    σ' !! B w = Some (NdArray (map (λ ρ, (c7 ρ / 8)%Q) sel)) ∧
    σ' !! Phi w = Some (NdArray (map (λ ρ, (c5 ρ / 100)%Q) sel)) ∧
    σ' !! RR w = Some (NdArray (map c3 sel)) ∧
    σ' !! fresh (dom σ) = Some (DataFrame F) ∧
    σ ⊆ σ'.
Proof.
  intros Hs F sel.
  pose proof (start_of_Some _ _ _ _ Hs) as (Hrange & _ & _).
  fold F in Hrange.
  remember (get_weather_data Nt self σ) as run eqn:Hrun.
  unfold get_weather_data, read_excel, np_array in Hrun. fold F in Hrun.
  (* data = pd.read_excel(...) *)
  set (d := fresh (dom σ)) in *. set (σ1 := <[d := DataFrame F]> σ).
  step Hrun (alloc_run (DataFrame F) σ). fold d σ1 in Hrun.
  assert (Hd1 : σ1 !! d = Some (DataFrame F)) by old_object.
  (* start_index *)
  step Hrun (iloc_col_run _ _ _ c0 Hd1).
  step Hrun (iloc_col_run _ _ _ c1 Hd1).
  rewrite mask_rows in Hrun.
  rewrite (bind_ok _ _ σ1 σ1 s) in Hrun.
  2:{ unfold lift. f_equal. unfold start_of in Hs. fold F in Hs.
      destruct (index_where (map (row_matches (cb_month self) (sb_day self)) F))
        as [|s' rest]; [done|].
      simpl in Hs. injection Hs as ->. by apply py_index_ok. }
  step Hrun (df_len_run _ _ _ Hd1).
  set (rows := window_rows s Nt (Z.of_nat (length F))) in *.
  assert (Hrows : Forall (λ r, 0 ≤ r < Z.of_nat (length F)) rows)
    by by apply window_rows_in_range.
  (* u_inf *)
  step Hrun (iloc_rows_run _ _ _ _ c6 Hd1 Hrows). fold sel in Hrun.
  set (u := fresh (dom σ1)) in *. set (σ2 := <[u := NdArray (map c6 sel)]> σ1).
  step Hrun (alloc_run (NdArray (map c6 sel)) σ1). fold u σ2 in Hrun.
  assert (Hd2 : σ2 !! d = Some (DataFrame F)) by old_object.
  (* Theta_inf *)
  step Hrun (iloc_rows_run _ _ _ _ c4 Hd2 Hrows). fold sel in Hrun.
  set (t := fresh (dom σ2)) in *. set (σ3 := <[t := NdArray (map c4 sel)]> σ2).
  step Hrun (alloc_run (NdArray (map c4 sel)) σ2). fold t σ3 in Hrun.
  assert (Hd3 : σ3 !! d = Some (DataFrame F)) by old_object.
  assert (Ht3 : σ3 !! t = Some (NdArray (map c4 sel))) by old_object.
  (* S_w *)
  step Hrun (iloc_rows_run _ _ _ _ c3 Hd3 Hrows). fold sel in Hrun.
  set (sw := fresh (dom σ3)) in *. set (σ4 := <[sw := NdArray (map c3 sel)]> σ3).
  step Hrun (alloc_run (NdArray (map c3 sel)) σ3). fold sw σ4 in Hrun.
  assert (Hne : t ≠ sw).
  { intros E. pose proof (fresh_None σ3) as Hnew. fold sw in Hnew.
    rewrite <- E, Ht3 in Hnew. done. }
  assert (Ht4 : σ4 !! t = Some (NdArray (map c4 sel))) by old_object.
  assert (Hs4 : σ4 !! sw = Some (NdArray (map c3 sel))) by old_object.
  (* for i, j in enumerate(Theta_inf) *)
  step Hrun (np_len_run _ _ _ Ht4).
  unfold py_range in Hrun.
  replace (Z.to_nat (Z.of_nat (length (map c4 sel)) - 0))
    with (length (map c4 sel)) in Hrun by lia.
  step Hrun (snow_loop_run t sw (length (map c4 sel)) Hne 0%nat
               (map c4 sel) (map c3 sel) σ4 Ht4 Hs4
               ltac:(by rewrite !length_map) ltac:(lia)).
  rewrite take_0, !drop_0, app_nil_l, zip_with_snow in Hrun.
  unfold σ4 in Hrun at 1. rewrite insert_insert_eq in Hrun. clear Ht4 Hs4 σ4.
  set (snow := map (λ ρ, snow_of (c4 ρ) (c3 ρ)) sel) in *.
  set (σ5 := <[sw := NdArray snow]> σ3) in *.
  assert (Hd5 : σ5 !! d = Some (DataFrame F)) by old_object.
  (* B *)
  step Hrun (iloc_rows_run _ _ _ _ c7 Hd5 Hrows). fold sel in Hrun.
  set (a7 := fresh (dom σ5)) in *. set (σ6 := <[a7 := NdArray (map c7 sel)]> σ5).
  step Hrun (alloc_run (NdArray (map c7 sel)) σ5). fold a7 σ6 in Hrun.
  assert (Ha6 : σ6 !! a7 = Some (NdArray (map c7 sel))) by old_object.
  step Hrun (np_div_run _ _ _ 8%Q Ha6). rewrite map_map in Hrun.
  set (b := fresh (dom σ6)) in *.
  set (σ7 := <[b := NdArray (map (λ ρ, (c7 ρ / 8)%Q) sel)]> σ6) in *.
  assert (Hd7 : σ7 !! d = Some (DataFrame F)) by old_object.
  (* Phi *)
  step Hrun (iloc_rows_run _ _ _ _ c5 Hd7 Hrows). fold sel in Hrun.
  set (a5 := fresh (dom σ7)) in *. set (σ8 := <[a5 := NdArray (map c5 sel)]> σ7).
  step Hrun (alloc_run (NdArray (map c5 sel)) σ7). fold a5 σ8 in Hrun.
  assert (Ha8 : σ8 !! a5 = Some (NdArray (map c5 sel))) by old_object.
  step Hrun (np_div_run _ _ _ 100%Q Ha8). rewrite map_map in Hrun.
  set (ph := fresh (dom σ8)) in *.
  set (σ9 := <[ph := NdArray (map (λ ρ, (c5 ρ / 100)%Q) sel)]> σ8) in *.
  assert (Hd9 : σ9 !! d = Some (DataFrame F)) by old_object.
  (* RR *)
  step Hrun (iloc_rows_run _ _ _ _ c3 Hd9 Hrows). fold sel in Hrun.
  set (rr := fresh (dom σ9)) in *. set (σ10 := <[rr := NdArray (map c3 sel)]> σ9).
  step Hrun (alloc_run (NdArray (map c3 sel)) σ9). fold rr σ10 in Hrun.
  unfold ret in Hrun.
  exists (Weather u t sw b ph rr), σ10. cbn [u_inf Theta_inf S_w B Phi RR].
  split; [done|].
  repeat (split; [old_object|]).
  repeat (etrans; [|apply alloc_subseteq]). done.
Qed.

Lemma values_lookup (σ : store) a xs :
  σ !! a = Some (NdArray xs) → values σ a = xs.
Proof. intros H. unfold values. by rewrite H. Qed.

(** What a successful call has returned. *)
Lemma get_weather_data_Ok Nt self (σ : store) w :
  (get_weather_data Nt self σ).1 = Ok w →
  let σ' := (get_weather_data Nt self σ).2 in
  let F := line_weather_file self in
  ∃ s, start_of F (cb_month self) (sb_day self) = Some s ∧
    0 ≤ s < Z.of_nat (length F) ∧
    let sel := selected F (window_rows s Nt (Z.of_nat (length F))) in
    σ' !! u_inf w = Some (NdArray (map c6 sel)) ∧
    σ' !! Theta_inf w = Some (NdArray (map c4 sel)) ∧
    σ' !! S_w w = Some (NdArray (map (λ ρ, snow_of (c4 ρ) (c3 ρ)) sel)) ∧
    σ' !! B w = Some (NdArray (map (λ ρ, (c7 ρ / 8)%Q) sel)) ∧
    σ' !! Phi w = Some (NdArray (map (λ ρ, (c5 ρ / 100)%Q) sel)) ∧
    σ' !! RR w = Some (NdArray (map c3 sel)).
Proof.
  intros Hok σ' F. subst σ'.
  destruct (start_of F (cb_month self) (sb_day self)) as [s|] eqn:Hs.
  - destruct (get_weather_data_found Nt self σ s Hs)
      as (w' & σ' & Hrun & Hu & Ht & Hsw & Hb & Hp & Hr & _).
    rewrite Hrun in *. simpl in *. injection Hok as ->.
    exists s. split; [done|].
    split; [by apply (start_of_Some _ _ _ _ Hs)|]. done.
  - rewrite (get_weather_data_not_found Nt self σ Hs) in Hok. done.
Qed.

(** The sheet [sheet0] from 1 January: the third hour has 1 °C, so its
    snowfall is zeroed while its total precipitation stays. *)
Example run_january :
  let σ' := (get_weather_data 3 ui0 ∅).2 in
  (get_weather_data 3 ui0 ∅).1 = Ok w0 ∧
  values σ' (Theta_inf w0) = [-2; 1 # 2; 1]%Q ∧
  values σ' (S_w w0) = [3 # 2; 1 # 2; 0]%Q ∧
  values σ' (RR w0) = [3 # 2; 1 # 2; 2]%Q ∧
  σ' !! 1%positive = Some (DataFrame sheet0).
Proof. vm_compute. repeat split. Qed.

(** From 2 January with three steps the window wraps and has four rows. *)
Example run_wrap :
  let σ' := (get_weather_data 3 (Ui sheet0 2 1) ∅).2 in
  (get_weather_data 3 (Ui sheet0 2 1) ∅).1 = Ok w0 ∧
  values σ' (u_inf w0) = [1; 4; 3; 5 # 2]%Q ∧
  values σ' (S_w w0) = [0; 3 # 2; 1 # 2; 0]%Q.
Proof. vm_compute. repeat split. Qed.

Lemma selected_row (F : list row) rows (i : nat) r :
  Forall (λ r, 0 ≤ r < Z.of_nat (length F)) rows →
  rows !! i = Some r →
  ∃ ρ, F !! Z.to_nat r = Some ρ ∧ selected F rows !! i = Some ρ.
Proof.
  intros Hrows Hi.
  pose proof (proj1 (Forall_lookup _ _) Hrows i r Hi) as Hr. simpl in Hr.
  destruct (lookup_lt_is_Some_2 F (Z.to_nat r)) as [ρ Hρ]; [lia|].
  exists ρ. split; [done|]. by rewrite (selected_lookup F rows i r).
Qed.

Lemma no_match_check (F : list row) month day :
  forallb (λ ρ, negb (row_matches month day ρ)) F = true → no_match F month day.
Proof.
  intros H ρ Hρ [H0 H1].
  apply list_elem_of_In in Hρ.
  pose proof (proj1 (forallb_forall _ _) H ρ Hρ) as Hn.
  unfold row_matches in Hn.
  apply Qeq_bool_iff in H0, H1. by rewrite H0, H1 in Hn.
Qed.

(** ** The channels *)

(** C2.  On a successful extraction, at every selected row the returned
    total precipitation is the raw value of the precipitation column, and
    the returned snowfall rate is that raw value, except that it is 0
    where the row's ambient temperature is at least 1 °C.  Hence the
    snowfall rate equals the total precipitation where the temperature is
    below 1, and is 0 where it is at least 1. *)
Theorem snowfall_rate_and_total_precipitation Nt self (σ : store) w :
  (get_weather_data Nt self σ).1 = Ok w →
  let σ' := (get_weather_data Nt self σ).2 in
  let F := line_weather_file self in
  ∃ s, start_of F (cb_month self) (sb_day self) = Some s ∧
    ∀ (i : nat) r, window_rows s Nt (Z.of_nat (length F)) !! i = Some r →
      ∃ ρ, F !! Z.to_nat r = Some ρ ∧
        values σ' (Theta_inf w) !! i = Some (c4 ρ) ∧
        values σ' (RR w) !! i = Some (c3 ρ) ∧
        values σ' (S_w w) !! i
          = Some (if Qle_bool 1 (c4 ρ) then 0%Q else c3 ρ) ∧
        ((1 <= c4 ρ)%Q → values σ' (S_w w) !! i = Some 0%Q) ∧
        ((c4 ρ < 1)%Q →
           values σ' (S_w w) !! i = values σ' (RR w) !! i).
Proof.
  intros Hok σ' F.
  destruct (get_weather_data_Ok Nt self σ w Hok)
    as (s & Hs & Hrange & _ & Ht & Hsw & _ & _ & Hr).
  fold σ' F in Ht, Hsw, Hr, Hs, Hrange.
  apply values_lookup in Ht, Hsw, Hr.
  exists s. split; [done|]. intros i r Hi.
  destruct (selected_row F _ i r (window_rows_in_range s Nt _ Hrange) Hi)
    as (ρ & Hρ & Hsel).
  exists ρ. split; [done|].
  rewrite Ht, Hsw, Hr, !list_lookup_fmap, Hsel. simpl. unfold snow_of.
  repeat split; try done.
  - intros Hwarm. apply Qle_bool_iff in Hwarm. by rewrite Hwarm.
  - intros Hcold. destruct (Qle_bool 1 (c4 ρ)) eqn:E; [|done].
    apply Qle_bool_iff in E. by apply Qle_not_lt in E.
Qed.

Lemma snowfall_rate_and_total_precipitation_witness :
  (get_weather_data 3 ui0 ∅).1 = Ok w0 ∧
  let σ' := (get_weather_data 3 ui0 ∅).2 in
  ∃ s, start_of sheet0 1 1 = Some s ∧
    ∀ (i : nat) r, window_rows s 3 4 !! i = Some r →
      ∃ ρ, sheet0 !! Z.to_nat r = Some ρ ∧
        values σ' (Theta_inf w0) !! i = Some (c4 ρ) ∧
        values σ' (RR w0) !! i = Some (c3 ρ) ∧
        values σ' (S_w w0) !! i
          = Some (if Qle_bool 1 (c4 ρ) then 0%Q else c3 ρ) ∧
        ((1 <= c4 ρ)%Q → values σ' (S_w w0) !! i = Some 0%Q) ∧
        ((c4 ρ < 1)%Q →
           values σ' (S_w w0) !! i = values σ' (RR w0) !! i).
Proof.
  assert (H : (get_weather_data 3 ui0 ∅).1 = Ok w0) by (vm_compute; reflexivity).
  split; [exact H|].
  exact (snowfall_rate_and_total_precipitation 3 ui0 ∅ w0 H).
Defined.

(** C6.  On a successful extraction, at every selected row the cloud
    fraction is the raw cloud column divided by 8 and the relative
    humidity is the raw humidity column divided by 100; a raw cloud value
    in [0, 8] gives a cloud fraction in [0, 1], and a raw humidity in
    [0, 100] gives a relative humidity in [0, 1]. *)
Theorem cloud_fraction_and_relative_humidity Nt self (σ : store) w :
  (get_weather_data Nt self σ).1 = Ok w →
  let σ' := (get_weather_data Nt self σ).2 in
  let F := line_weather_file self in
  ∃ s, start_of F (cb_month self) (sb_day self) = Some s ∧
    ∀ (i : nat) r, window_rows s Nt (Z.of_nat (length F)) !! i = Some r →
      ∃ ρ b φ, F !! Z.to_nat r = Some ρ ∧
        values σ' (B w) !! i = Some b ∧ b = (c7 ρ / 8)%Q ∧
        values σ' (Phi w) !! i = Some φ ∧ φ = (c5 ρ / 100)%Q ∧
        ((0 <= c7 ρ)%Q ∧ (c7 ρ <= 8)%Q → (0 <= b)%Q ∧ (b <= 1)%Q) ∧
        ((0 <= c5 ρ)%Q ∧ (c5 ρ <= 100)%Q → (0 <= φ)%Q ∧ (φ <= 1)%Q).
Proof.
  intros Hok σ' F.
  destruct (get_weather_data_Ok Nt self σ w Hok)
    as (s & Hs & Hrange & _ & _ & _ & Hb & Hp & _).
  fold σ' F in Hb, Hp, Hs, Hrange.
  apply values_lookup in Hb, Hp.
  exists s. split; [done|]. intros i r Hi.
  destruct (selected_row F _ i r (window_rows_in_range s Nt _ Hrange) Hi)
    as (ρ & Hρ & Hsel).
  exists ρ, (c7 ρ / 8)%Q, (c5 ρ / 100)%Q. split; [done|].
  rewrite Hb, Hp, !list_lookup_fmap, Hsel. simpl.
  repeat split; try done.
  - apply Qle_shift_div_l; [done|]. rewrite Qmult_0_l. tauto.
  - apply Qle_shift_div_r; [done|]. rewrite Qmult_1_l. tauto.
  - apply Qle_shift_div_l; [done|]. rewrite Qmult_0_l. tauto.
  - apply Qle_shift_div_r; [done|]. rewrite Qmult_1_l. tauto.
Qed.

Lemma cloud_fraction_and_relative_humidity_witness :
  (get_weather_data 3 ui0 ∅).1 = Ok w0 ∧
  let σ' := (get_weather_data 3 ui0 ∅).2 in
  ∃ s, start_of sheet0 1 1 = Some s ∧
    ∀ (i : nat) r, window_rows s 3 4 !! i = Some r →
      ∃ ρ b φ, sheet0 !! Z.to_nat r = Some ρ ∧
        values σ' (B w0) !! i = Some b ∧ b = (c7 ρ / 8)%Q ∧
        values σ' (Phi w0) !! i = Some φ ∧ φ = (c5 ρ / 100)%Q ∧
        ((0 <= c7 ρ)%Q ∧ (c7 ρ <= 8)%Q → (0 <= b)%Q ∧ (b <= 1)%Q) ∧
        ((0 <= c5 ρ)%Q ∧ (c5 ρ <= 100)%Q → (0 <= φ)%Q ∧ (φ <= 1)%Q).
Proof.
  assert (H : (get_weather_data 3 ui0 ∅).1 = Ok w0) by (vm_compute; reflexivity).
  split; [exact H|].
  exact (cloud_fraction_and_relative_humidity 3 ui0 ∅ w0 H).
Defined.

(** C7.  On a successful extraction the six returned objects are arrays
    of one length, the length of the list of selected rows, and position
    [i] of each of them is derived from the row at position [i] of that
    list. *)
Theorem six_sequences_aligned Nt self (σ : store) w :
  (get_weather_data Nt self σ).1 = Ok w →
  let σ' := (get_weather_data Nt self σ).2 in
  let F := line_weather_file self in
  ∃ s us ts ss bs ps rs,
    start_of F (cb_month self) (sb_day self) = Some s ∧
    σ' !! u_inf w = Some (NdArray us) ∧
    σ' !! Theta_inf w = Some (NdArray ts) ∧
    σ' !! S_w w = Some (NdArray ss) ∧
    σ' !! B w = Some (NdArray bs) ∧
    σ' !! Phi w = Some (NdArray ps) ∧
    σ' !! RR w = Some (NdArray rs) ∧
    let rows := window_rows s Nt (Z.of_nat (length F)) in
    length us = length rows ∧ length ts = length rows ∧
    length ss = length rows ∧ length bs = length rows ∧
    length ps = length rows ∧ length rs = length rows ∧
    ∀ (i : nat) r, rows !! i = Some r →
      ∃ ρ, F !! Z.to_nat r = Some ρ ∧
        us !! i = Some (c6 ρ) ∧
        ts !! i = Some (c4 ρ) ∧
        ss !! i = Some (snow_of (c4 ρ) (c3 ρ)) ∧
        bs !! i = Some (c7 ρ / 8)%Q ∧
        ps !! i = Some (c5 ρ / 100)%Q ∧
        rs !! i = Some (c3 ρ).
Proof.
  intros Hok σ' F.
  destruct (get_weather_data_Ok Nt self σ w Hok)
    as (s & Hs & Hrange & Hu & Ht & Hsw & Hb & Hp & Hr).
  fold σ' F in Hu, Ht, Hsw, Hb, Hp, Hr, Hs, Hrange.
  pose proof (window_rows_in_range s Nt _ Hrange) as Hrows.
  set (rows := window_rows s Nt (Z.of_nat (length F))) in *.
  eexists s, _, _, _, _, _, _.
  do 7 (split; [eassumption|]).
  cbv zeta. fold rows. rewrite !length_map, (selected_length F rows Hrows).
  repeat (split; [done|]).
  intros i r Hi.
  destruct (selected_row F rows i r Hrows Hi) as (ρ & Hρ & Hsel).
  exists ρ. rewrite !list_lookup_fmap, Hsel. done.
Qed.

Lemma six_sequences_aligned_witness :
  (get_weather_data 3 ui0 ∅).1 = Ok w0 ∧
  let σ' := (get_weather_data 3 ui0 ∅).2 in
  ∃ s us ts ss bs ps rs,
    start_of sheet0 1 1 = Some s ∧
    σ' !! u_inf w0 = Some (NdArray us) ∧
    σ' !! Theta_inf w0 = Some (NdArray ts) ∧
    σ' !! S_w w0 = Some (NdArray ss) ∧
    σ' !! B w0 = Some (NdArray bs) ∧
    σ' !! Phi w0 = Some (NdArray ps) ∧
    σ' !! RR w0 = Some (NdArray rs) ∧
    let rows := window_rows s 3 4 in
    length us = length rows ∧ length ts = length rows ∧
    length ss = length rows ∧ length bs = length rows ∧
    length ps = length rows ∧ length rs = length rows ∧
    ∀ (i : nat) r, rows !! i = Some r →
      ∃ ρ, sheet0 !! Z.to_nat r = Some ρ ∧
        us !! i = Some (c6 ρ) ∧
        ts !! i = Some (c4 ρ) ∧
        ss !! i = Some (snow_of (c4 ρ) (c3 ρ)) ∧
        bs !! i = Some (c7 ρ / 8)%Q ∧
        ps !! i = Some (c5 ρ / 100)%Q ∧
        rs !! i = Some (c3 ρ).
Proof.
  assert (H : (get_weather_data 3 ui0 ∅).1 = Ok w0) by (vm_compute; reflexivity).
  split; [exact H|].
  exact (six_sequences_aligned 3 ui0 ∅ w0 H).
Defined.

(** ** The table is left alone *)

(** C8.  Whatever the outcome of the call, the frame read from the sheet
    holds the rows of the sheet when the call ends, and every object that
    was in the store before the call is unchanged: zeroing the snowfall
    writes into an array made during the call only. *)
Theorem table_not_mutated Nt self (σ : store) :
  let σ' := (get_weather_data Nt self σ).2 in
  σ' !! fresh (dom σ) = Some (DataFrame (line_weather_file self)) ∧
  σ ⊆ σ' ∧
  ∀ l o, σ !! l = Some o → σ' !! l = Some o.
Proof.
  intros σ'.
  assert (H : σ' !! fresh (dom σ) = Some (DataFrame (line_weather_file self))
              ∧ σ ⊆ σ').
  { subst σ'.
    destruct (start_of (line_weather_file self) (cb_month self) (sb_day self))
      as [s|] eqn:Hs.
    - destruct (get_weather_data_found Nt self σ s Hs)
        as (w & σ' & Hrun & _ & _ & _ & _ & _ & _ & Hd & Hsub).
      rewrite Hrun. done.
    - rewrite (get_weather_data_not_found Nt self σ Hs). simpl.
      split; [apply lookup_insert_eq|apply alloc_subseteq]. }
  destruct H as [Hd Hsub]. repeat split; [done..|].
  intros l o Hl. by apply (lookup_weaken σ σ').
Qed.

(** ** A date that is not in the table *)

(** C4, as the code has it.  When no row carries the requested month and
    day, the call ends in the [IndexError] of [tolist()[0]] on an empty
    list of matches. *)
Theorem missing_date_raises_IndexError Nt self (σ : store) :
  no_match (line_weather_file self) (cb_month self) (sb_day self) →
  (get_weather_data Nt self σ).1 = Raise IndexError.
Proof.
  intros H. by rewrite (get_weather_data_not_found Nt self σ (start_of_None _ _ _ H)).
Qed.

Lemma missing_date_raises_IndexError_witness :
  no_match sheet0 2 1 ∧ (get_weather_data 3 ui_feb ∅).1 = Raise IndexError.
Proof.
  assert (H : no_match sheet0 2 1) by (apply no_match_check; reflexivity).
  split; [exact H|].
  exact (missing_date_raises_IndexError 3 ui_feb ∅ H).
Defined.

(** C4, as stated, fails: for 1 February, which [sheet0] does not have,
    the call raises [IndexError] and not [NotFoundError]. *)
Lemma missing_date_not_NotFoundError :
  no_match sheet0 2 1 ∧
  (get_weather_data 3 ui_feb ∅).1 = Raise IndexError ∧
  (get_weather_data 3 ui_feb ∅).1 ≠ Raise NotFoundError.
Proof.
  split; [apply no_match_check; reflexivity|].
  assert (H : (get_weather_data 3 ui_feb ∅).1 = Raise IndexError)
    by (vm_compute; reflexivity).
  split; [exact H|]. rewrite H. discriminate.
Qed.

(** ** Heat pipes *)

Import Heatpipes.

(** [int] rounds toward zero. *)
Lemma py_int_toward_zero (x : Q) :
  ((0 <= x)%Q → (inject_Z (py_int x) <= x)%Q ∧ (x < inject_Z (py_int x + 1))%Q) ∧
  ((x <= 0)%Q → (inject_Z (py_int x - 1) < x)%Q ∧ (x <= inject_Z (py_int x))%Q).
Proof.
  destruct x as [n d]. unfold py_int, Qle, Qlt. simpl.
  pose proof (Z.quot_rem' n (Z.pos d)) as Hqr.
  split; intros Hn.
  - pose proof (Z.rem_bound_pos_pos n (Z.pos d) ltac:(lia) ltac:(lia)). nia.
  - pose proof (Z.rem_bound_pos_neg n (Z.pos d) ltac:(lia) ltac:(lia)). nia.
Qed.

Lemma py_int_inject_Z (z : Z) : py_int (inject_Z z) = z.
Proof. unfold py_int. simpl. apply Z.quot_1_r. Qed.

Lemma xy_step_run (self : t) (m : list (R * R)) (k : nat) :
  (k < length m)%nat →
  xy_step self m (0 + Z.of_nat k)
  = Ok (<[k := pipe_point (r_w self) (N self) (Z.of_nat k)]> m).
Proof.
  intros Hk. destruct (lookup_lt_is_Some_2 m k Hk) as [p Hp].
  assert (Hpos : (0 + Z.of_nat k <? 0) = false) by (apply Z.ltb_ge; lia).
  assert (Hnat : Z.to_nat (0 + Z.of_nat k) = k) by lia.
  unfold xy_step, setitem_x.
  rewrite (py_index_ok m _ p) by (lia || by rewrite Hnat).
  cbn [rbind]. unfold setitem_y. rewrite Hpos, Hnat.
  rewrite (py_index_ok _ _ (r_w self * cos (2 * PI * IZR (0 + Z.of_nat k) / IZR (N self)), p.2)%R).
  - cbn [rbind]. by rewrite list_insert_insert_eq.
  - lia.
  - rewrite Hnat. by apply list_lookup_insert_eq.
Qed.

Lemma xy_loop_run (self : t) (cnt : nat) : ∀ (k : nat) (m : list (R * R)),
  length m = (k + cnt)%nat →
  xy_loop self m (map (λ j : nat, 0 + Z.of_nat j) (seq k cnt))
  = Ok (take k m ++
        map (λ j : nat, pipe_point (r_w self) (N self) (Z.of_nat j)) (seq k cnt)).
Proof.
  induction cnt as [|cnt IH]; intros k m Hlen.
  - simpl. by rewrite take_ge, app_nil_r by lia.
  - cbn [seq map xy_loop]. rewrite xy_step_run by lia. cbn [rbind].
    rewrite IH by (rewrite length_insert; lia).
    rewrite (take_S_r _ _ (pipe_point (r_w self) (N self) (Z.of_nat k)))
      by (apply list_lookup_insert_eq; lia).
    rewrite take_insert_ge by lia. by rewrite <- app_assoc.
Qed.

(** For a count that is not negative, [xy_mat] returns the points of the
    pipes [0 .. N-1]. *)
Lemma xy_mat_run (self : t) :
  0 ≤ N self →
  xy_mat self
  = Ok (map (λ j : nat, pipe_point (r_w self) (N self) (Z.of_nat j))
          (seq 0 (Z.to_nat (N self)))).
Proof.
  intros HN. unfold xy_mat, np_zeros2.
  destruct (Z.ltb_spec (N self) 0); [lia|]. cbn [rbind].
  unfold py_range. rewrite Z.sub_0_r.
  rewrite xy_loop_run by (by rewrite length_replicate).
  by rewrite take_0.
Qed.

Lemma xy_mat_negative (self : t) : N self < 0 → xy_mat self = Raise ValueError.
Proof.
  intros HN. unfold xy_mat, np_zeros2.
  by destruct (Z.ltb_spec (N self) 0); [|lia].
Qed.

Lemma pipe_point_on_circle (r : R) (n i : Z) :
  ((pipe_point r n i).1 * (pipe_point r n i).1
   + (pipe_point r n i).2 * (pipe_point r n i).2 = r * r)%R.
Proof.
  unfold pipe_point. simpl.
  set (a := (2 * PI * IZR i / IZR n)%R).
  pose proof (sin2_cos2 a) as H. unfold Rsqr in H.
  replace (r * cos a * (r * cos a) + r * sin a * (r * sin a))%R
    with (r * r * (sin a * sin a + cos a * cos a))%R by ring.
  rewrite H. ring.
Qed.

(** ** The pipe centres *)

(** C3.  For a count [N ≥ 1] and any radius [r_w] of the circle of pipe
    centres, [xy_mat] returns exactly [N] points; point [i] (from 0) is
    [(r_w·cos(2π·i/N), r_w·sin(2π·i/N))]; it lies on the circle of radius
    [r_w] round the origin, at distance [r_w] for a radius (a length,
    [0 ≤ r_w]); for [N = 1] the only point is [(r_w, 0)]. *)
Theorem xy_mat_points (self : t) :
  1 ≤ N self →
  ∃ m, xy_mat self = Ok m ∧
    Z.of_nat (length m) = N self ∧
    (∀ i, 0 ≤ i < N self →
       ∃ x y, m !! Z.to_nat i = Some (x, y) ∧
         x = (r_w self * cos (2 * PI * IZR i / IZR (N self)))%R ∧
         y = (r_w self * sin (2 * PI * IZR i / IZR (N self)))%R ∧
         (x * x + y * y = r_w self * r_w self)%R ∧
         ((0 <= r_w self)%R → dist0 (x, y) = r_w self)) ∧
    (N self = 1 → m = [(r_w self, 0%R)]).
Proof.
  intros HN. eexists. split; [apply xy_mat_run; lia|].
  split; [rewrite length_map, length_seq; lia|]. split.
  - intros i Hi.
    exists (pipe_point (r_w self) (N self) i).1, (pipe_point (r_w self) (N self) i).2.
    split.
    { rewrite list_lookup_fmap, lookup_seq_lt by lia. simpl.
      by replace (Z.of_nat (Z.to_nat i)) with i by lia. }
    split; [done|]. split; [done|].
    pose proof (pipe_point_on_circle (r_w self) (N self) i) as Hc.
    split; [exact Hc|].
    intros Hr. unfold dist0. cbn [fst snd]. rewrite Hc. by apply sqrt_square.
  - intros ->. simpl. unfold pipe_point. do 2 f_equal.
    + replace (2 * PI * IZR (Z.of_nat 0) / 1)%R with 0%R
        by (change (Z.of_nat 0) with 0; lra).
      rewrite cos_0. lra.
    + replace (2 * PI * IZR (Z.of_nat 0) / 1)%R with 0%R
        by (change (Z.of_nat 0) with 0; lra).
      rewrite sin_0. lra.
Qed.

Lemma xy_mat_points_witness :
  1 ≤ N hp_one ∧ (0 <= r_w hp_one)%R ∧
  ∃ m x y, xy_mat hp_one = Ok m ∧ m = [(4%R, 0%R)] ∧
    m !! 0%nat = Some (x, y) ∧ dist0 (x, y) = 4%R.
Proof.
  assert (H1 : 1 ≤ N hp_one) by (simpl; lia).
  assert (Hr : (0 <= r_w hp_one)%R) by (simpl; lra).
  split; [exact H1|]. split; [exact Hr|].
  destruct (xy_mat_points hp_one H1) as (m & Hm & _ & Hpts & Hone).
  destruct (Hpts 0 ltac:(simpl; lia)) as (x & y & Hxy & _ & _ & _ & Hd).
  exists m, x, y.
  split; [exact Hm|]. split; [exact (Hone eq_refl)|].
  split; [exact Hxy|]. exact (Hd Hr).
Defined.

(** C9.  For a count of 0, [xy_mat] returns the empty sequence of points
    and raises nothing. *)
Theorem xy_mat_no_pipes (self : t) : N self = 0 → xy_mat self = Ok [].
Proof. intros H. rewrite xy_mat_run by lia. by rewrite H. Qed.

Lemma xy_mat_no_pipes_witness : N hp_none = 0 ∧ xy_mat hp_none = Ok [].
Proof.
  split; [reflexivity|]. exact (xy_mat_no_pipes hp_none eq_refl).
Defined.

(** ** The constructor *)

(** C5, as the code has it.  For a finite count and finite floats as
    radii and conductivities, a configuration whose radii are not
    strictly nested, or whose count [int(N)] is negative, is constructed
    all the same: the constructor returns it, with [int(N)] as the count
    and the radii and conductivities as given, and does not raise
    [InvalidConfigurationError]. *)
Theorem unchecked_configuration_is_constructed
    (n : Q) (rb rw riso rpa rpi lb liso lp : R) :
  let h := Build (py_int n) rb rw riso rpa rpi lb liso lp in
  ¬ nested h ∨ N h < 0 →
  __init__ n rb rw riso rpa rpi lb liso lp = Ok h ∧
  __init__ n rb rw riso rpa rpi lb liso lp ≠ Raise InvalidConfigurationError.
Proof. intros h _. split; [reflexivity|discriminate]. Qed.

Lemma unchecked_configuration_is_constructed_witness :
  (¬ nested hp_reversed ∨ N hp_reversed < 0) ∧
  __init__ 4 1 2 3 4 5 1 1 1 = Ok hp_reversed ∧
  __init__ 4 1 2 3 4 5 1 1 1 ≠ Raise InvalidConfigurationError.
Proof.
  assert (H : ¬ nested hp_reversed ∨ N hp_reversed < 0).
  { left. unfold nested. simpl. lra. }
  split; [exact H|].
  exact (unchecked_configuration_is_constructed 4 1 2 3 4 5 1 1 1 H).
Defined.

(** C5, as stated, fails: radii in the reverse of the nested order are
    accepted, and so is a negative count. *)
Lemma invalid_configuration_accepted :
  ¬ nested hp_reversed ∧
  __init__ 4 1 2 3 4 5 1 1 1 = Ok hp_reversed ∧
  __init__ 4 1 2 3 4 5 1 1 1 ≠ Raise InvalidConfigurationError ∧
  nested hp_negative ∧ N hp_negative < 0 ∧
  __init__ (-2) 5 4 3 2 1 1 1 1 = Ok hp_negative ∧
  __init__ (-2) 5 4 3 2 1 1 1 1 ≠ Raise InvalidConfigurationError.
Proof.
  split.
  { unfold nested. simpl. lra. }
  split; [reflexivity|]. split; [discriminate|].
  split.
  { unfold nested. simpl. lra. }
  split; [reflexivity|]. split; [reflexivity|discriminate].
Qed.

(** C10, as the code has it.  For every number [n] the stored count is
    [int(n)], [n] rounded toward zero.  When that count is not negative,
    [xy_mat] then returns that many points, so that 2.9 gives 2 pipes;
    when it is negative, [xy_mat] raises [ValueError]. *)
Theorem count_is_truncated
    (n : Q) (rb rw riso rpa rpi lb liso lp : R) :
  ∃ h, __init__ n rb rw riso rpa rpi lb liso lp = Ok h ∧
    N h = py_int n ∧
    ((0 <= n)%Q → (inject_Z (N h) <= n)%Q ∧ (n < inject_Z (N h + 1))%Q) ∧
    ((n <= 0)%Q → (inject_Z (N h - 1) < n)%Q ∧ (n <= inject_Z (N h))%Q) ∧
    (0 ≤ N h → ∃ m, xy_mat h = Ok m ∧ Z.of_nat (length m) = N h) ∧
    (N h < 0 → xy_mat h = Raise ValueError).
Proof.
  eexists. split; [reflexivity|]. cbn [N].
  split; [done|].
  split; [apply py_int_toward_zero|]. split; [apply py_int_toward_zero|].
  split.
  - intros HN. eexists. split; [by apply xy_mat_run|].
    cbn [N]. rewrite length_map, length_seq. lia.
  - intros HN. apply xy_mat_negative. exact HN.
Qed.

Lemma count_is_truncated_witness :
  ∃ h m, __init__ (29 # 10) 5 4 3 2 1 1 1 1 = Ok h ∧ N h = 2 ∧
    xy_mat h = Ok m ∧ length m = 2%nat.
Proof.
  destruct (count_is_truncated (29 # 10) 5 4 3 2 1 1 1 1)
    as (h & Hh & HN & _ & _ & Hpts & _).
  assert (H2 : N h = 2) by (rewrite HN; reflexivity).
  destruct (Hpts ltac:(rewrite H2; lia)) as (m & Hm & Hlen).
  exists h, m. split; [exact Hh|]. split; [exact H2|].
  split; [exact Hm|]. lia.
Defined.

(** C10, as stated, fails: for -2.9 the stored count is -2, and [xy_mat]
    raises instead of returning points. *)
Lemma negative_count_returns_no_points :
  __init__ (- 29 # 10) 5 4 3 2 1 1 1 1 = Ok hp_negative ∧
  N hp_negative = py_int (- 29 # 10) ∧
  xy_mat hp_negative = Raise ValueError ∧
  ¬ ∃ m, xy_mat hp_negative = Ok m ∧ Z.of_nat (length m) = py_int (- 29 # 10).
Proof.
  assert (H : xy_mat hp_negative = Raise ValueError) by reflexivity.
  split; [reflexivity|]. split; [reflexivity|]. split; [exact H|].
  intros (m & Hm & _). rewrite H in Hm. discriminate.
Qed.

(** * Further properties of the code *)

(** ** The window, for every step count *)

Lemma interval_lookup (a : Z) (n i : nat) r :
  0 ≤ a → interval a n !! i = Some r → r = a + Z.of_nat i ∧ (i < n)%nat.
Proof.
  intros Ha H. unfold interval in H. rewrite list_lookup_fmap in H.
  destruct (seq (Z.to_nat a) n !! i) as [k|] eqn:E; [|done].
  apply lookup_seq in E as [-> Hi]. simpl in H. injection H as <-.
  split; [lia|done].
Qed.

Lemma interval_NoDup (a : Z) (n : nat) : NoDup (interval a n).
Proof.
  unfold interval. apply NoDup_fmap_2; [|apply NoDup_seq].
  intros x y H. lia.
Qed.

(** The window as a rotation of the table, whatever the step count. *)
Lemma window_rows_shape (s Nt L : Z) :
  0 ≤ s < L →
  window_rows s Nt L
  = if s + Nt <=? L then interval s (Z.to_nat Nt)
    else interval s (Z.to_nat (L - s)) ++ interval 0 (Z.to_nat s).
Proof.
  intros Hs. unfold window_rows.
  destruct (Z.gtb_spec (s + Nt) L), (Z.leb_spec (s + Nt) L); try lia.
  - destruct (Z.eqb_spec 0 s) as [<-|]; simpl.
    + rewrite py_range_interval by lia. unfold interval at 3. simpl.
      by rewrite app_nil_r.
    + rewrite !py_range_interval by lia. by rewrite Z.sub_0_r.
  - rewrite py_range_interval by lia. f_equal. lia.
Qed.

(** X1.  For a start position inside the table and any step count, the
    row at place [i] of the window is row [(s + i) mod L]: the window
    runs through the table in order and wraps at its end. *)
Theorem window_rows_modular (s Nt L : Z) (i : nat) r :
  0 ≤ s < L →
  window_rows s Nt L !! i = Some r →
  r = (s + Z.of_nat i) mod L.
Proof.
  intros Hs H. rewrite window_rows_shape in H by done.
  destruct (Z.leb_spec (s + Nt) L).
  - apply interval_lookup in H as [-> Hi]; [|lia].
    rewrite Z.mod_small; lia.
  - apply lookup_app_Some in H as [H|[Hlen H]].
    + apply interval_lookup in H as [-> Hi]; [|lia].
      rewrite Z.mod_small; lia.
    + unfold interval in Hlen at 1. rewrite length_map, length_seq in Hlen.
      unfold interval in H at 1. rewrite length_map, length_seq in H.
      apply interval_lookup in H as [-> Hi]; [|lia].
      replace (s + Z.of_nat i) with (Z.of_nat (i - Z.to_nat (L - s)) + 1 * L) by lia.
      rewrite Z.mod_add by lia. rewrite Z.mod_small; lia.
Qed.

Lemma window_rows_modular_witness :
  0 ≤ 95 < 100 ∧ window_rows 95 10 100 !! 7%nat = Some 2 ∧
  2 = (95 + Z.of_nat 7) mod 100.
Proof.
  assert (Hs : 0 ≤ 95 < 100) by lia.
  assert (H : window_rows 95 10 100 !! 7%nat = Some 2) by reflexivity.
  split; [exact Hs|]. split; [exact H|].
  exact (window_rows_modular 95 10 100 7 2 Hs H).
Defined.

(** X2.  For a start position inside the table and any step count, no
    row is selected twice, and the window has [Nt] rows when it fits
    ([0] of them for [Nt ≤ 0]) and as many rows as the table otherwise. *)
Theorem window_rows_NoDup_length (s Nt L : Z) :
  0 ≤ s < L →
  NoDup (window_rows s Nt L) ∧
  length (window_rows s Nt L)
  = Z.to_nat (if s + Nt <=? L then Nt else L).
Proof.
  intros Hs. rewrite window_rows_shape by done.
  destruct (Z.leb_spec (s + Nt) L).
  - split; [apply interval_NoDup|].
    unfold interval. by rewrite length_map, length_seq.
  - split.
    + apply NoDup_app. split; [apply interval_NoDup|].
      split; [|apply interval_NoDup].
      intros r H1 H2.
      apply list_elem_of_lookup in H1 as [i Hi], H2 as [j Hj].
      apply interval_lookup in Hi as [-> Hi]; [|lia].
      apply interval_lookup in Hj as [Hr Hj]; lia.
    + rewrite length_app. unfold interval.
      rewrite !length_map, !length_seq. lia.
Qed.

Lemma window_rows_NoDup_length_witness :
  0 ≤ 2 < 5 ∧ NoDup (window_rows 2 (-3) 5) ∧ length (window_rows 2 (-3) 5) = 0%nat.
Proof.
  assert (Hs : 0 ≤ 2 < 5) by lia.
  split; [exact Hs|]. exact (window_rows_NoDup_length 2 (-3) 5 Hs).
Defined.

(** X3.  When the request runs past the end of the table, the window is
    a rearrangement of all rows of the table, each exactly once, and it
    is the same window for every such step count. *)
Theorem window_rows_overshoot (s Nt L : Z) :
  0 ≤ s < L → L < s + Nt →
  window_rows s Nt L ≡ₚ interval 0 (Z.to_nat L) ∧
  ∀ Nt', L < s + Nt' → window_rows s Nt' L = window_rows s Nt L.
Proof.
  intros Hs Hover. split.
  - rewrite window_rows_shape by done.
    destruct (Z.leb_spec (s + Nt) L); [lia|].
    rewrite Permutation_app_comm. unfold interval.
    rewrite <- fmap_app.
    replace (Z.to_nat 0) with 0%nat by done.
    replace (Z.to_nat s) with (0 + Z.to_nat s)%nat at 2 by done.
    rewrite <- seq_app. by replace (Z.to_nat s + Z.to_nat (L - s))%nat
      with (Z.to_nat L) by lia.
  - intros Nt' Hover'. rewrite !window_rows_shape by done.
    destruct (Z.leb_spec (s + Nt) L), (Z.leb_spec (s + Nt') L); (lia || done).
Qed.

Lemma window_rows_overshoot_witness :
  0 ≤ 95 < 100 ∧ 100 < 95 + 10 ∧
  window_rows 95 10 100 ≡ₚ interval 0 100 ∧
  window_rows 95 5000 100 = window_rows 95 10 100.
Proof.
  assert (Hs : 0 ≤ 95 < 100) by lia.
  assert (Ho : 100 < 95 + 10) by lia.
  split; [exact Hs|]. split; [exact Ho|].
  destruct (window_rows_overshoot 95 10 100 Hs Ho) as [Hp Hsame].
  split; [exact Hp|]. apply Hsame. lia.
Defined.

(** ** The objects of a call *)

Lemma fresh_ne (σ : store) l o : σ !! l = Some o → l ≠ fresh (dom σ).
Proof. intros H ->. by rewrite fresh_None in H. Qed.

(** An earlier object differs from one allocated after it. *)
Ltac older := eapply fresh_ne; old_object.

(** The store before the call lies under the allocations made since. *)
Ltac grown := repeat (etrans; [|apply alloc_subseteq]); done.

(** With a matching row, the six arrays are six different objects, none
    of them the frame, and none of them in the store before the call. *)
Lemma get_weather_data_objects Nt self (σ : store) s :
  start_of (line_weather_file self) (cb_month self) (sb_day self) = Some s →
  ∃ w (σ' : store),
    get_weather_data Nt self σ = (Ok w, σ') ∧
    NoDup (fresh (dom σ) :: arrays w) ∧
    Forall (λ l, σ !! l = None) (arrays w).
Proof.
  intros Hs. set (F := line_weather_file self) in *.
  set (sel := selected F (window_rows s Nt (Z.of_nat (length F)))).
  pose proof (start_of_Some _ _ _ _ Hs) as (Hrange & _ & _).
  remember (get_weather_data Nt self σ) as run eqn:Hrun.
  unfold get_weather_data, read_excel, np_array in Hrun. fold F in Hrun.
  set (d := fresh (dom σ)) in *. set (σ1 := <[d := DataFrame F]> σ).
  step Hrun (alloc_run (DataFrame F) σ). fold d σ1 in Hrun.
  assert (Hd1 : σ1 !! d = Some (DataFrame F)) by old_object.
  step Hrun (iloc_col_run _ _ _ c0 Hd1).
  step Hrun (iloc_col_run _ _ _ c1 Hd1).
  rewrite mask_rows in Hrun.
  rewrite (bind_ok _ _ σ1 σ1 s) in Hrun.
  2:{ unfold lift. f_equal. unfold start_of in Hs.
      destruct (index_where (map (row_matches (cb_month self) (sb_day self)) F))
        as [|s' rest]; [done|].
      simpl in Hs. injection Hs as ->. by apply py_index_ok. }
  step Hrun (df_len_run _ _ _ Hd1).
  set (rows := window_rows s Nt (Z.of_nat (length F))) in *.
  assert (Hrows : Forall (λ r, 0 ≤ r < Z.of_nat (length F)) rows)
    by by apply window_rows_in_range.
  step Hrun (iloc_rows_run _ _ _ _ c6 Hd1 Hrows). fold sel in Hrun.
  set (u := fresh (dom σ1)) in *. set (σ2 := <[u := NdArray (map c6 sel)]> σ1).
  step Hrun (alloc_run (NdArray (map c6 sel)) σ1). fold u σ2 in Hrun.
  assert (Hd2 : σ2 !! d = Some (DataFrame F)) by old_object.
  step Hrun (iloc_rows_run _ _ _ _ c4 Hd2 Hrows). fold sel in Hrun.
  set (t := fresh (dom σ2)) in *. set (σ3 := <[t := NdArray (map c4 sel)]> σ2).
  step Hrun (alloc_run (NdArray (map c4 sel)) σ2). fold t σ3 in Hrun.
  assert (Hd3 : σ3 !! d = Some (DataFrame F)) by old_object.
  assert (Ht3 : σ3 !! t = Some (NdArray (map c4 sel))) by old_object.
  step Hrun (iloc_rows_run _ _ _ _ c3 Hd3 Hrows). fold sel in Hrun.
  set (sw := fresh (dom σ3)) in *. set (σ4 := <[sw := NdArray (map c3 sel)]> σ3).
  step Hrun (alloc_run (NdArray (map c3 sel)) σ3). fold sw σ4 in Hrun.
  assert (Hne : t ≠ sw) by older.
  assert (Ht4 : σ4 !! t = Some (NdArray (map c4 sel))) by old_object.
  assert (Hs4 : σ4 !! sw = Some (NdArray (map c3 sel))) by old_object.
  step Hrun (np_len_run _ _ _ Ht4).
  unfold py_range in Hrun.
  replace (Z.to_nat (Z.of_nat (length (map c4 sel)) - 0))
    with (length (map c4 sel)) in Hrun by lia.
  step Hrun (snow_loop_run t sw (length (map c4 sel)) Hne 0%nat
               (map c4 sel) (map c3 sel) σ4 Ht4 Hs4
               ltac:(by rewrite !length_map) ltac:(lia)).
  rewrite take_0, !drop_0, app_nil_l, zip_with_snow in Hrun.
  unfold σ4 in Hrun at 1. rewrite insert_insert_eq in Hrun. clear Ht4 Hs4 σ4.
  set (snow := map (λ ρ, snow_of (c4 ρ) (c3 ρ)) sel) in *.
  set (σ5 := <[sw := NdArray snow]> σ3) in *.
  assert (Hd5 : σ5 !! d = Some (DataFrame F)) by old_object.
  step Hrun (iloc_rows_run _ _ _ _ c7 Hd5 Hrows). fold sel in Hrun.
  set (a7 := fresh (dom σ5)) in *. set (σ6 := <[a7 := NdArray (map c7 sel)]> σ5).
  step Hrun (alloc_run (NdArray (map c7 sel)) σ5). fold a7 σ6 in Hrun.
  assert (Ha6 : σ6 !! a7 = Some (NdArray (map c7 sel))) by old_object.
  step Hrun (np_div_run _ _ _ 8%Q Ha6). rewrite map_map in Hrun.
  set (b := fresh (dom σ6)) in *.
  set (σ7 := <[b := NdArray (map (λ ρ, (c7 ρ / 8)%Q) sel)]> σ6) in *.
  assert (Hd7 : σ7 !! d = Some (DataFrame F)) by old_object.
  step Hrun (iloc_rows_run _ _ _ _ c5 Hd7 Hrows). fold sel in Hrun.
  set (a5 := fresh (dom σ7)) in *. set (σ8 := <[a5 := NdArray (map c5 sel)]> σ7).
  step Hrun (alloc_run (NdArray (map c5 sel)) σ7). fold a5 σ8 in Hrun.
  assert (Ha8 : σ8 !! a5 = Some (NdArray (map c5 sel))) by old_object.
  step Hrun (np_div_run _ _ _ 100%Q Ha8). rewrite map_map in Hrun.
  set (ph := fresh (dom σ8)) in *.
  set (σ9 := <[ph := NdArray (map (λ ρ, (c5 ρ / 100)%Q) sel)]> σ8) in *.
  assert (Hd9 : σ9 !! d = Some (DataFrame F)) by old_object.
  step Hrun (iloc_rows_run _ _ _ _ c3 Hd9 Hrows). fold sel in Hrun.
  set (rr := fresh (dom σ9)) in *. set (σ10 := <[rr := NdArray (map c3 sel)]> σ9).
  step Hrun (alloc_run (NdArray (map c3 sel)) σ9). fold rr σ10 in Hrun.
  unfold ret in Hrun.
  exists (Weather u t sw b ph rr), σ10. unfold arrays.
  cbn [u_inf Theta_inf S_w B Phi RR].
  split; [done|]. split.
  - repeat (apply NoDup_cons; split;
            [rewrite !elem_of_cons, elem_of_nil; intros Hin|]).
    + destruct Hin as [E|[E|[E|[E|[E|[E|[]]]]]]]; revert E; older.
    + destruct Hin as [E|[E|[E|[E|[E|[]]]]]]; revert E; older.
    + destruct Hin as [E|[E|[E|[E|[]]]]]; revert E; older.
    + destruct Hin as [E|[E|[E|[]]]]; revert E; older.
    + destruct Hin as [E|[E|[]]]; revert E; older.
    + destruct Hin as [E|[]]; revert E; older.
    + apply NoDup_singleton.
  - repeat (apply Forall_cons; split; [|]); try apply Forall_nil_2.
    + apply (lookup_weaken_None σ σ1); [apply fresh_None|grown].
    + apply (lookup_weaken_None σ σ2); [apply fresh_None|grown].
    + apply (lookup_weaken_None σ σ3); [apply fresh_None|grown].
    + apply (lookup_weaken_None σ σ6); [apply fresh_None|grown].
    + apply (lookup_weaken_None σ σ8); [apply fresh_None|grown].
    + apply (lookup_weaken_None σ σ9); [apply fresh_None|grown].
Qed.

(** ** When the extraction succeeds *)

Lemma index_where_from_nil_inv mask : ∀ k,
  index_where_from k mask = [] → Forall (λ b, b = false) mask.
Proof.
  induction mask as [|b mask IH]; intros k H; [done|].
  simpl in H. destruct b; [done|]. apply Forall_cons. split; [done|by eapply IH].
Qed.

Lemma start_of_None_inv (F : list row) month day :
  start_of F month day = None → no_match F month day.
Proof.
  unfold start_of, index_where. intros H.
  destruct (index_where_from 0 (map (row_matches month day) F)) eqn:E; [|done].
  apply index_where_from_nil_inv in E.
  intros ρ Hρ [H0 H1].
  apply (proj1 (Forall_fmap _ _ _)) in E.
  pose proof (proj1 (Forall_forall _ _) E ρ Hρ) as Hb. simpl in Hb.
  unfold row_matches in Hb.
  apply Qeq_bool_iff in H0, H1. by rewrite H0, H1 in Hb.
Qed.

(** X4.  Once the sheet has been read, the extraction returns its six
    arrays exactly when some row of the sheet carries the requested
    month and day. *)
Theorem extraction_succeeds_iff_date_present Nt self (σ : store) :
  (∃ w, (get_weather_data Nt self σ).1 = Ok w) ↔
  (∃ ρ, ρ ∈ line_weather_file self ∧
        (c0 ρ == inject_Z (cb_month self))%Q ∧
        (c1 ρ == inject_Z (sb_day self))%Q).
Proof.
  destruct (start_of (line_weather_file self) (cb_month self) (sb_day self))
    as [s|] eqn:Hs.
  - destruct (get_weather_data_found Nt self σ s Hs) as (w & σ' & Hrun & _).
    destruct (start_of_Some _ _ _ _ Hs) as (_ & (ρ & Hρ & Hm) & _).
    rewrite Hrun. simpl. split; [|by exists w].
    intros _. exists ρ. split; [by eapply list_elem_of_lookup_2|].
    unfold row_matches in Hm. apply andb_prop in Hm as [H0 H1].
    split; by apply Qeq_bool_iff.
  - rewrite (get_weather_data_not_found Nt self σ Hs). simpl.
    split; [by intros [w Hw]|].
    intros (ρ & Hρ & H0 & H1).
    by destruct (start_of_None_inv _ _ _ Hs ρ Hρ).
Qed.

(** X5.  On a sheet without rows the extraction ends in [IndexError] for
    every date and step count; the store has gained the empty frame. *)
Theorem empty_sheet_raises_IndexError (Nt day month : Z) (σ : store) :
  get_weather_data Nt (Ui [] day month) σ
  = (Raise IndexError, <[fresh (dom σ) := DataFrame []]> σ).
Proof. by apply get_weather_data_not_found. Qed.

Lemma window_rows_head (s Nt L : Z) :
  0 ≤ s < L → 0 < Nt → window_rows s Nt L !! 0%nat = Some s.
Proof.
  intros Hs HNt. rewrite window_rows_shape by done.
  assert (Hi : ∀ n, (0 < n)%nat → interval s n !! 0%nat = Some s).
  { intros n Hn. unfold interval. rewrite list_lookup_fmap.
    rewrite lookup_seq_lt by done. simpl. f_equal. lia. }
  destruct (s + Nt <=? L).
  - apply Hi. lia.
  - rewrite lookup_app_l; [apply Hi; lia|].
    unfold interval. rewrite length_map, length_seq. lia.
Qed.

(** X6.  When several rows carry the requested date, the window starts
    at the first of them: for a positive step count, the first entry of
    the returned arrays comes from the first row of the sheet that
    matches. *)
Theorem window_starts_at_first_match Nt self (σ : store) w :
  (get_weather_data Nt self σ).1 = Ok w →
  0 < Nt →
  let σ' := (get_weather_data Nt self σ).2 in
  let F := line_weather_file self in
  ∃ (k : nat) ρ,
    F !! k = Some ρ ∧
    row_matches (cb_month self) (sb_day self) ρ = true ∧
    (∀ (j : nat) ρ', (j < k)%nat → F !! j = Some ρ' →
       row_matches (cb_month self) (sb_day self) ρ' = false) ∧
    values σ' (u_inf w) !! 0%nat = Some (c6 ρ) ∧
    values σ' (Theta_inf w) !! 0%nat = Some (c4 ρ) ∧
    values σ' (RR w) !! 0%nat = Some (c3 ρ).
Proof.
  intros Hok HNt σ' F.
  destruct (get_weather_data_Ok Nt self σ w Hok)
    as (s & Hs & Hrange & Hu & Ht & _ & _ & _ & Hr).
  fold σ' F in Hu, Ht, Hr, Hs, Hrange.
  apply values_lookup in Hu, Ht, Hr.
  destruct (start_of_Some _ _ _ _ Hs) as (_ & (ρ & Hρ & Hm) & Hfirst).
  exists (Z.to_nat s), ρ. split; [done|]. split; [done|]. split; [done|].
  pose proof (window_rows_head s Nt _ Hrange HNt) as Hhead.
  pose proof (selected_lookup F _ 0%nat s
                (window_rows_in_range s Nt _ Hrange) Hhead) as Hsel.
  rewrite Hu, Ht, Hr, !list_lookup_fmap, Hsel, Hρ. done.
Qed.

Lemma window_starts_at_first_match_witness :
  (get_weather_data 3 ui0 ∅).1 = Ok w0 ∧ 0 < 3 ∧
  let σ' := (get_weather_data 3 ui0 ∅).2 in
  ∃ (k : nat) ρ,
    sheet0 !! k = Some ρ ∧
    row_matches 1 1 ρ = true ∧
    (∀ (j : nat) ρ', (j < k)%nat → sheet0 !! j = Some ρ' →
       row_matches 1 1 ρ' = false) ∧
    values σ' (u_inf w0) !! 0%nat = Some (c6 ρ) ∧
    values σ' (Theta_inf w0) !! 0%nat = Some (c4 ρ) ∧
    values σ' (RR w0) !! 0%nat = Some (c3 ρ).
Proof.
  assert (H : (get_weather_data 3 ui0 ∅).1 = Ok w0) by (vm_compute; reflexivity).
  assert (H3 : 0 < 3) by lia.
  split; [exact H|]. split; [exact H3|].
  exact (window_starts_at_first_match 3 ui0 ∅ w0 H H3).
Defined.

(** X7.  With a matching row and a step count of zero or less, the
    extraction succeeds and all six arrays are empty. *)
Theorem no_steps_empty_arrays Nt self (σ : store) s :
  start_of (line_weather_file self) (cb_month self) (sb_day self) = Some s →
  Nt ≤ 0 →
  ∃ w, (get_weather_data Nt self σ).1 = Ok w ∧
    Forall (λ l, (get_weather_data Nt self σ).2 !! l = Some (NdArray []))
           (arrays w).
Proof.
  intros Hs HNt.
  destruct (get_weather_data_found Nt self σ s Hs)
    as (w & σ' & Hrun & Hu & Ht & Hsw & Hb & Hp & Hr & _).
  destruct (start_of_Some _ _ _ _ Hs) as (Hrange & _).
  rewrite window_rows_shape in Hu, Ht, Hsw, Hb, Hp, Hr by done.
  destruct (Z.leb_spec (s + Nt) (Z.of_nat (length (line_weather_file self))));
    [|lia].
  replace (Z.to_nat Nt) with 0%nat in * by lia.
  exists w. rewrite Hrun. split; [done|]. unfold arrays.
  repeat (apply Forall_cons; split; [done|]). apply Forall_nil_2.
Qed.

Lemma no_steps_empty_arrays_witness :
  start_of sheet0 1 1 = Some 0 ∧ -2 ≤ 0 ∧
  ∃ w, (get_weather_data (-2) ui0 ∅).1 = Ok w ∧
    Forall (λ l, (get_weather_data (-2) ui0 ∅).2 !! l = Some (NdArray []))
           (arrays w).
Proof.
  assert (Hs : start_of sheet0 1 1 = Some 0) by reflexivity.
  assert (HNt : -2 ≤ 0) by lia.
  split; [exact Hs|]. split; [exact HNt|].
  exact (no_steps_empty_arrays (-2) ui0 ∅ 0 Hs HNt).
Defined.

(** X8.  The six returned arrays are six different objects, none of them
    is the frame, and none of them was in the store before the call: the
    caller can write into one without touching another or the table. *)
Theorem returned_arrays_are_new_and_distinct Nt self (σ : store) w :
  (get_weather_data Nt self σ).1 = Ok w →
  NoDup (fresh (dom σ) :: arrays w) ∧
  Forall (λ l, σ !! l = None) (arrays w).
Proof.
  intros Hok.
  destruct (start_of (line_weather_file self) (cb_month self) (sb_day self))
    as [s|] eqn:Hs.
  - destruct (get_weather_data_objects Nt self σ s Hs) as (w' & σ' & Hrun & H).
    rewrite Hrun in Hok. simpl in Hok. by injection Hok as <-.
  - by rewrite (get_weather_data_not_found Nt self σ Hs) in Hok.
Qed.

Lemma returned_arrays_are_new_and_distinct_witness :
  (get_weather_data 3 ui0 ∅).1 = Ok w0 ∧
  NoDup (fresh (dom (∅ : gmap positive obj)) :: arrays w0) ∧
  Forall (λ l, (∅ : gmap positive obj) !! l = None) (arrays w0).
Proof.
  assert (H : (get_weather_data 3 ui0 ∅).1 = Ok w0) by (vm_compute; reflexivity).
  split; [exact H|].
  exact (returned_arrays_are_new_and_distinct 3 ui0 ∅ w0 H).
Defined.

(** X9.  Nothing is cached and nothing is shared between calls: a second
    call on the store left by a successful first call succeeds, returns
    six arrays that are new objects with the same values as those of the
    first call, and leaves the arrays of the first call as they were. *)
Theorem second_call_same_values_new_arrays Nt self (σ : store) w1 :
  (get_weather_data Nt self σ).1 = Ok w1 →
  let σ1 := (get_weather_data Nt self σ).2 in
  let σ2 := (get_weather_data Nt self σ1).2 in
  ∃ w2, (get_weather_data Nt self σ1).1 = Ok w2 ∧
    Forall2 (λ l1 l2, l1 ≠ l2 ∧
               ∃ xs, σ1 !! l1 = Some (NdArray xs) ∧
                     σ2 !! l1 = Some (NdArray xs) ∧
                     σ2 !! l2 = Some (NdArray xs))
            (arrays w1) (arrays w2).
Proof.
  intros Hok σ1 σ2.
  destruct (get_weather_data_Ok Nt self σ w1 Hok)
    as (s & Hs & _ & Hu & Ht & Hsw & Hb & Hp & Hr).
  fold σ1 in Hu, Ht, Hsw, Hb, Hp, Hr.
  destruct (get_weather_data_found Nt self σ1 s Hs)
    as (w2 & σ2' & Hrun & Hu2 & Ht2 & Hsw2 & Hb2 & Hp2 & Hr2 & _ & Hsub).
  destruct (get_weather_data_objects Nt self σ1 s Hs)
    as (w2' & σ2'' & Hrun' & _ & Hnew).
  rewrite Hrun in Hrun'. injection Hrun' as <- <-.
  subst σ2. rewrite Hrun. simpl.
  exists w2. split; [done|].
  unfold arrays in *.
  repeat (apply Forall_cons in Hnew as [?Hn Hnew]).
  repeat (apply Forall2_cons; split); try apply Forall2_nil_2.
  all: split;
    [ intros E; rewrite <- E in *; congruence
    | eexists; split; [eassumption|];
      split; [eapply lookup_weaken; eassumption|eassumption] ].
Qed.

Lemma second_call_same_values_new_arrays_witness :
  (get_weather_data 3 ui0 ∅).1 = Ok w0 ∧
  let σ1 := (get_weather_data 3 ui0 ∅).2 in
  let σ2 := (get_weather_data 3 ui0 σ1).2 in
  ∃ w2, (get_weather_data 3 ui0 σ1).1 = Ok w2 ∧
    Forall2 (λ l1 l2, l1 ≠ l2 ∧
               ∃ xs, σ1 !! l1 = Some (NdArray xs) ∧
                     σ2 !! l1 = Some (NdArray xs) ∧
                     σ2 !! l2 = Some (NdArray xs))
            (arrays w0) (arrays w2).
Proof.
  assert (H : (get_weather_data 3 ui0 ∅).1 = Ok w0) by (vm_compute; reflexivity).
  split; [exact H|].
  exact (second_call_same_values_new_arrays 3 ui0 ∅ w0 H).
Defined.

(** X10.  At every position the snowfall rate is either 0 or the total
    precipitation; where the total precipitation is not negative, the
    snowfall rate lies between 0 and the total precipitation. *)
Theorem snowfall_at_most_total_precipitation Nt self (σ : store) w :
  (get_weather_data Nt self σ).1 = Ok w →
  let σ' := (get_weather_data Nt self σ).2 in
  ∀ (i : nat) sn p,
    values σ' (S_w w) !! i = Some sn →
    values σ' (RR w) !! i = Some p →
    (sn = 0%Q ∨ sn = p) ∧
    ((0 <= p)%Q → (0 <= sn)%Q ∧ (sn <= p)%Q).
Proof.
  intros Hok σ' i sn p.
  destruct (get_weather_data_Ok Nt self σ w Hok)
    as (s & _ & _ & _ & _ & Hsw & _ & _ & Hr).
  fold σ' in Hsw, Hr. apply values_lookup in Hsw, Hr.
  rewrite Hsw, Hr, !list_lookup_fmap.
  destruct (selected _ _ !! i) as [ρ|]; [|done].
  simpl. intros [= <-] [= <-]. unfold snow_of.
  destruct (Qle_bool 1 (c4 ρ)).
  - split; [by left|]. intros Hp. split; [apply Qle_refl|done].
  - split; [by right|]. intros Hp. split; [done|apply Qle_refl].
Qed.

Lemma snowfall_at_most_total_precipitation_witness :
  (get_weather_data 3 ui0 ∅).1 = Ok w0 ∧
  let σ' := (get_weather_data 3 ui0 ∅).2 in
  values σ' (S_w w0) !! 2%nat = Some 0%Q ∧
  values σ' (RR w0) !! 2%nat = Some 2%Q ∧
  (0%Q = 0%Q ∨ 0%Q = 2%Q) ∧ ((0 <= 2)%Q → (0 <= 0)%Q ∧ (0 <= 2)%Q).
Proof.
  assert (H : (get_weather_data 3 ui0 ∅).1 = Ok w0) by (vm_compute; reflexivity).
  assert (Hs : values (get_weather_data 3 ui0 ∅).2 (S_w w0) !! 2%nat = Some 0%Q)
    by (vm_compute; reflexivity).
  assert (Hr : values (get_weather_data 3 ui0 ∅).2 (RR w0) !! 2%nat = Some 2%Q)
    by (vm_compute; reflexivity).
  split; [exact H|]. split; [exact Hs|]. split; [exact Hr|].
  exact (snowfall_at_most_total_precipitation 3 ui0 ∅ w0 H 2%nat 0%Q 2%Q Hs Hr).
Defined.

(** ** Geometry of the pipe centres *)

Lemma xy_mat_point (self : t) (i : Z) :
  0 ≤ i < N self →
  xy_mat self
  = Ok (map (λ j : nat, pipe_point (r_w self) (N self) (Z.of_nat j))
          (seq 0 (Z.to_nat (N self)))) ∧
  map (λ j : nat, pipe_point (r_w self) (N self) (Z.of_nat j))
      (seq 0 (Z.to_nat (N self))) !! Z.to_nat i
  = Some (pipe_point (r_w self) (N self) i).
Proof.
  intros Hi. split; [apply xy_mat_run; lia|].
  rewrite list_lookup_fmap, lookup_seq_lt by lia. simpl.
  by replace (Z.of_nat (Z.to_nat i)) with i by lia.
Qed.

(** X11.  For every count [N ≥ 1] the first pipe lies on the positive
    x-axis, at [(r_w, 0)]. *)
Theorem first_pipe_on_x_axis (self : t) :
  1 ≤ N self →
  ∃ m, xy_mat self = Ok m ∧ m !! 0%nat = Some (r_w self, 0%R).
Proof.
  intros HN. destruct (xy_mat_point self 0 ltac:(lia)) as [Hm H0].
  eexists. split; [exact Hm|].
  change (Z.to_nat 0) with 0%nat in H0. rewrite H0.
  unfold pipe_point. do 2 f_equal.
  - replace (2 * PI * 0 / IZR (N self))%R with 0%R by (unfold Rdiv; ring).
    rewrite cos_0. ring.
  - replace (2 * PI * 0 / IZR (N self))%R with 0%R by (unfold Rdiv; ring).
    rewrite sin_0. ring.
Qed.

Lemma first_pipe_on_x_axis_witness :
  1 ≤ N hp_four ∧ ∃ m, xy_mat hp_four = Ok m ∧ m !! 0%nat = Some (4%R, 0%R).
Proof.
  assert (H : 1 ≤ N hp_four) by (simpl; lia).
  split; [exact H|]. exact (first_pipe_on_x_axis hp_four H).
Defined.

(** X12.  Each pipe centre is the one before it turned about the origin
    by the angle [2π/N]: the pipes are equally spaced on their circle. *)
Theorem next_pipe_is_rotated (self : t) (i : Z) :
  0 ≤ i → i + 1 < N self →
  ∃ m p q, xy_mat self = Ok m ∧
    m !! Z.to_nat i = Some p ∧
    m !! Z.to_nat (i + 1) = Some q ∧
    q = rotate (2 * PI / IZR (N self)) p.
Proof.
  intros Hi HN.
  destruct (xy_mat_point self i ltac:(lia)) as [Hm Hp].
  destruct (xy_mat_point self (i + 1) ltac:(lia)) as [_ Hq].
  eexists _, _, _. split; [exact Hm|]. split; [exact Hp|]. split; [exact Hq|].
  assert (HNz : IZR (N self) ≠ 0%R) by (apply not_0_IZR; lia).
  unfold rotate, pipe_point. cbn [fst snd]. rewrite plus_IZR.
  replace (2 * PI * (IZR i + 1) / IZR (N self))%R
    with (2 * PI * IZR i / IZR (N self) + 2 * PI / IZR (N self))%R
    by (field; exact HNz).
  rewrite cos_plus, sin_plus. f_equal; ring.
Qed.

Lemma next_pipe_is_rotated_witness :
  0 ≤ 2 ∧ 2 + 1 < N hp_four ∧
  ∃ m p q, xy_mat hp_four = Ok m ∧
    m !! 2%nat = Some p ∧ m !! 3%nat = Some q ∧
    q = rotate (2 * PI / 4) p.
Proof.
  assert (H0 : 0 ≤ 2) by lia.
  assert (H1 : 2 + 1 < N hp_four) by (simpl; lia).
  split; [exact H0|]. split; [exact H1|].
  exact (next_pipe_is_rotated hp_four 2 H0 H1).
Defined.

(** X13.  With an even number [N = 2k] of pipes, pipe [i + k] lies
    diametrically opposite pipe [i]. *)
Theorem opposite_pipes (self : t) (k i : Z) :
  N self = 2 * k → 0 ≤ i < k →
  ∃ m x y, xy_mat self = Ok m ∧
    m !! Z.to_nat i = Some (x, y) ∧
    m !! Z.to_nat (i + k) = Some ((- x)%R, (- y)%R).
Proof.
  intros HN Hi.
  destruct (xy_mat_point self i ltac:(lia)) as [Hm Hp].
  destruct (xy_mat_point self (i + k) ltac:(lia)) as [_ Hq].
  eexists _, _, _. split; [exact Hm|]. split; [exact Hp|].
  rewrite Hq. unfold pipe_point. rewrite HN, plus_IZR, mult_IZR.
  assert (Hk : IZR k ≠ 0%R) by (apply not_0_IZR; lia).
  replace (2 * PI * (IZR i + IZR k) / (2 * IZR k))%R
    with (2 * PI * IZR i / (2 * IZR k) + PI)%R by (field; exact Hk).
  rewrite neg_cos, neg_sin. do 2 f_equal; ring.
Qed.

Lemma opposite_pipes_witness :
  N hp_four = 2 * 2 ∧ 0 ≤ 1 < 2 ∧
  ∃ m x y, xy_mat hp_four = Ok m ∧
    m !! 1%nat = Some (x, y) ∧ m !! 3%nat = Some ((- x)%R, (- y)%R).
Proof.
  assert (H0 : N hp_four = 2 * 2) by reflexivity.
  assert (H1 : 0 ≤ 1 < 2) by lia.
  split; [exact H0|]. split; [exact H1|].
  exact (opposite_pipes hp_four 2 1 H0 H1).
Defined.

(** X14.  In real-number arithmetic, with strictly nested radii and a
    pipe radius that is not negative, every pipe centre returned by
    [xy_mat] lies strictly inside the borehole wall.  (In binary64 the
    rounded distance can reach [r_b] when [r_b] is the float next to
    [r_w]; rounding is not part of this statement.) *)
Theorem pipe_centres_inside_borehole (self : t) (i : Z) :
  nested self → (0 <= r_pi self)%R → 0 ≤ i < N self →
  ∃ m p, xy_mat self = Ok m ∧ m !! Z.to_nat i = Some p ∧
    (dist0 p < r_b self)%R.
Proof.
  intros (H1 & H2 & H3 & H4) H0 Hi.
  destruct (xy_mat_point self i Hi) as [Hm Hp].
  eexists _, _. split; [exact Hm|]. split; [exact Hp|].
  unfold dist0. rewrite pipe_point_on_circle.
  rewrite sqrt_square by lra. exact H4.
Qed.

Lemma pipe_centres_inside_borehole_witness :
  nested hp_four ∧ (0 <= r_pi hp_four)%R ∧ 0 ≤ 3 < N hp_four ∧
  ∃ m p, xy_mat hp_four = Ok m ∧ m !! 3%nat = Some p ∧ (dist0 p < 5)%R.
Proof.
  assert (Hn : nested hp_four) by (unfold nested; simpl; lra).
  assert (H0 : (0 <= r_pi hp_four)%R) by (simpl; lra).
  assert (Hi : 0 ≤ 3 < N hp_four) by (simpl; lia).
  split; [exact Hn|]. split; [exact H0|]. split; [exact Hi|].
  exact (pipe_centres_inside_borehole hp_four 3 Hn H0 Hi).
Defined.

(** X15.  A count strictly between -1 and 1 is accepted and stored as 0:
    the configuration then has no pipes, and [xy_mat] returns the empty
    sequence. *)
Theorem fractional_count_gives_no_pipes
    (n : Q) (rb rw riso rpa rpi lb liso lp : R) :
  (-1 < n)%Q → (n < 1)%Q →
  ∃ h, __init__ n rb rw riso rpa rpi lb liso lp = Ok h ∧
    N h = 0 ∧ xy_mat h = Ok [].
Proof.
  intros Hlo Hhi. eexists. split; [reflexivity|].
  assert (H0 : py_int n = 0).
  { destruct n as [a d]. unfold py_int, Qlt in *. simpl in *.
    apply Z.quot_small_iff; lia. }
  cbn [N]. split; [exact H0|].
  rewrite xy_mat_run by (cbn [N]; lia). cbn [N]. by rewrite H0.
Qed.

Lemma fractional_count_gives_no_pipes_witness :
  (-1 < - 9 # 10)%Q ∧ (- 9 # 10 < 1)%Q ∧
  ∃ h, __init__ (- 9 # 10) 5 4 3 2 1 1 1 1 = Ok h ∧ N h = 0 ∧ xy_mat h = Ok [].
Proof.
  assert (Hlo : (-1 < - 9 # 10)%Q) by reflexivity.
  assert (Hhi : (- 9 # 10 < 1)%Q) by reflexivity.
  split; [exact Hlo|]. split; [exact Hhi|].
  exact (fractional_count_gives_no_pipes (- 9 # 10) 5 4 3 2 1 1 1 1 Hlo Hhi).
Defined.

(** ** The cross-section drawing *)

Lemma hp_step_run (self : t) (ax : Axes) (k : nat) :
  Z.of_nat k < N self →
  hp_step self ax (0 + Z.of_nat k)
  = Ok (MkAxes (patches ax ++ pipe_circles self k)
               (texts ax ++ [pipe_label self k])
               (xlabel ax) (ylabel ax) (title ax)
               (axis_equal ax) (minor_locators ax) (tight_layout ax)).
Proof.
  intros Hk. destruct (xy_mat_point self (Z.of_nat k) ltac:(lia)) as [Hm Hp].
  unfold hp_step. rewrite Hm. cbn [rbind].
  rewrite Nat2Z.id in Hp.
  rewrite (py_index_ok _ (0 + Z.of_nat k) _ ltac:(lia)
             ltac:(by replace (Z.to_nat (0 + Z.of_nat k)) with k by lia)).
  cbn [rbind]. unfold add_patch, add_text, pipe_circles, pipe_label.
  cbn [patches texts xlabel ylabel title axis_equal minor_locators tight_layout].
  f_equal. f_equal. by rewrite <- !app_assoc.
Qed.

Lemma hp_loop_run (self : t) (cnt : nat) : ∀ (k : nat) (ax : Axes),
  Z.of_nat (k + cnt) ≤ N self →
  hp_loop self ax (map (λ j : nat, 0 + Z.of_nat j) (seq k cnt))
  = Ok (MkAxes (patches ax ++ flat_map (pipe_circles self) (seq k cnt))
               (texts ax ++ map (pipe_label self) (seq k cnt))
               (xlabel ax) (ylabel ax) (title ax)
               (axis_equal ax) (minor_locators ax) (tight_layout ax)).
Proof.
  induction cnt as [|cnt IH]; intros k ax Hk.
  - simpl. rewrite !app_nil_r. by destruct ax.
  - cbn [seq map hp_loop flat_map]. rewrite hp_step_run by lia. cbn [rbind].
    rewrite IH by lia.
    cbn [patches texts xlabel ylabel title axis_equal minor_locators tight_layout].
    by rewrite <- !app_assoc.
Qed.

Lemma pipe_circles_length (self : t) (js : list nat) :
  length (flat_map (pipe_circles self) js) = (3 * length js)%nat.
Proof. induction js as [|j js IH]; [done|]. simpl. rewrite IH. lia. Qed.

(** X16.  For a count that is not negative the drawing succeeds and
    holds the borehole wall followed by three circles per pipe, in the
    order of the pipes (insulation, pipe outside, pipe inside, all round
    the pipe's centre from [xy_mat]), and one label per pipe, numbered
    from 1, at that centre: [1 + 3·N] circles and [N] labels. *)
Theorem visualize_hp_config_scene (self : t) :
  0 ≤ N self →
  ∃ ax, visualize_hp_config self = Ok ax ∧
    patches ax
    = borewall self :: flat_map (pipe_circles self) (seq 0 (Z.to_nat (N self))) ∧
    texts ax = map (pipe_label self) (seq 0 (Z.to_nat (N self))) ∧
    Z.of_nat (length (patches ax)) = 1 + 3 * N self ∧
    Z.of_nat (length (texts ax)) = N self ∧
    xlabel ax = "x (m)"%string ∧ ylabel ax = "y (m)"%string ∧
    title ax = "Heatpipe Layout"%string.
Proof.
  intros HN. unfold visualize_hp_config, py_range. rewrite Z.sub_0_r.
  rewrite hp_loop_run by lia. cbn [rbind].
  eexists. split; [reflexivity|].
  cbn [patches texts xlabel ylabel title add_patch new_axes app].
  split; [done|]. split; [done|]. split.
  - cbn [length]. rewrite pipe_circles_length, length_seq. lia.
  - rewrite length_map, length_seq. split; [lia|done].
Qed.

Lemma visualize_hp_config_scene_witness :
  0 ≤ N hp_four ∧
  ∃ ax, visualize_hp_config hp_four = Ok ax ∧
    patches ax = borewall hp_four :: flat_map (pipe_circles hp_four) (seq 0 4) ∧
    texts ax = map (pipe_label hp_four) (seq 0 4) ∧
    Z.of_nat (length (patches ax)) = 1 + 3 * 4 ∧
    Z.of_nat (length (texts ax)) = 4 ∧
    xlabel ax = "x (m)"%string ∧ ylabel ax = "y (m)"%string ∧
    title ax = "Heatpipe Layout"%string.
Proof.
  assert (H : 0 ≤ N hp_four) by (simpl; lia).
  split; [exact H|]. exact (visualize_hp_config_scene hp_four H).
Defined.

(** X17.  For a count of zero or less the drawing succeeds and shows the
    borehole wall alone: the loop over the pipes does not run, so that a
    negative count, for which [xy_mat] raises, raises nothing here. *)
Theorem visualize_hp_config_without_pipes (self : t) :
  N self ≤ 0 →
  ∃ ax, visualize_hp_config self = Ok ax ∧
    patches ax = [borewall self] ∧ texts ax = [].
Proof.
  intros HN. unfold visualize_hp_config, py_range.
  replace (Z.to_nat (N self - 0)) with 0%nat by lia.
  eexists. split; [reflexivity|]. done.
Qed.

Lemma visualize_hp_config_without_pipes_witness :
  N hp_negative ≤ 0 ∧ xy_mat hp_negative = Raise ValueError ∧
  ∃ ax, visualize_hp_config hp_negative = Ok ax ∧
    patches ax = [borewall hp_negative] ∧ texts ax = [].
Proof.
  assert (H : N hp_negative ≤ 0) by (simpl; lia).
  split; [exact H|]. split; [reflexivity|].
  exact (visualize_hp_config_without_pipes hp_negative H).
Defined.
